(** * iBigay backend: discovery and analytics core

    A shallow embedding of the three computations of [main.py] that carry
    logic: the suggestion engine [_generate_tipid_suggestions], the proximity
    search [list_items] (with [_haversine_km] and [serialize_doc]) and the
    diversion aggregator [user_stats].

    Modelling conventions.
    - A Python [str] is a [string]; [str.lower] is the ASCII case mapping.
    - A Python [float] is the real number it denotes: arithmetic is exact and
      the non-finite floats (inf, nan) are outside the model. Where the
      binary computation can differ from the exact one (which way [round]
      resolves a tie, a haversine term rounded past 1), the statements
      leave the difference open or are conditional on a returned value.
    - A document ([Dict[str, Any]]) is an insertion-ordered association list
      with unique keys, as a Python dict is.
    - A Python exception is the [Raise] outcome of the [result] monad;
      [try/except Exception] is a [match] on the outcome. *)

From Stdlib Require Import Reals Lra Lia ZArith Bool List String Ascii.
From Stdlib Require Import Permutation Sorted.
Import ListNotations.

Open Scope string_scope.
Open Scope list_scope.

(* ------------------------------------------------------------------ *)
(** ** Python runtime: exceptions *)

Inductive exn : Type :=
| TypeError
| ValueError
| OverflowError
| AttributeError.

Inductive result (A : Type) : Type :=
| Ok (a : A)
| Raise (e : exn).

Arguments Ok {A} a.
Arguments Raise {A} e.

Definition bind {A B : Type} (m : result A) (k : A -> result B) : result B :=
  match m with
  | Ok a => k a
  | Raise e => Raise e
  end.

Notation "x <- m ;; k" := (bind m (fun x => k))
  (at level 61, m at next level, right associativity).

(** [for x in xs: acc = body(acc, x)], stopping at the first exception. *)
Fixpoint for_each {A S : Type} (body : S -> A -> result S) (xs : list A) (acc : S)
  : result S :=
  match xs with
  | [] => Ok acc
  | x :: rest => acc' <- body acc x ;; for_each body rest acc'
  end.

(* ------------------------------------------------------------------ *)
(** ** Python runtime: strings *)

Definition lower_ascii (c : ascii) : ascii :=
  let n := N_of_ascii c in
  if ((65 <=? n) && (n <=? 90))%N then ascii_of_N (n + 32) else c.

(** [s.lower()] *)
Fixpoint lower (s : string) : string :=
  match s with
  | EmptyString => EmptyString
  | String c rest => String (lower_ascii c) (lower rest)
  end.

(** [needle in hay] for two strings: substring test. *)
Fixpoint contains (needle hay : string) : bool :=
  prefix needle hay ||
  match hay with
  | EmptyString => false
  | String _ rest => contains needle rest
  end.

(** [x in l] for a list of strings. *)
Definition mem (x : string) (l : list string) : bool :=
  existsb (String.eqb x) l.

(** [x in [..]] written against a literal list, as [user_stats] does. *)
Definition one_of (x : string) (l : list string) : bool := mem x l.

(* ------------------------------------------------------------------ *)
(** ** Suggestion engine *)

Record message : Type := {
  mascot_name : string;
  mascot_tagline : string;
  tips : list string;
  recipes : list string
}.

(** The two lists the closures [add_tip] and [add_recipe] mutate. *)
Record lists : Type := { acc_tips : list string; acc_recipes : list string }.

Definition add_tip (t : string) (st : lists) : lists :=
  if mem t (acc_tips st) then st
  else {| acc_tips := acc_tips st ++ [t]; acc_recipes := acc_recipes st |}.

Definition add_recipe (r : string) (st : lists) : lists :=
  if mem r (acc_recipes st) then st
  else {| acc_tips := acc_tips st; acc_recipes := acc_recipes st ++ [r] |}.

Definition tip_banana := "Freeze overripe bananas for smoothies or baking.".
Definition recipe_banana_bread := "Banana Bread na Pang-tipid".
Definition recipe_smoothie := "Smoothie: saging + gatas + yelo".
Definition recipe_maruya := "Maruya / Banana Fritters".
Definition tip_bread := "Gawing breadcrumbs o croutons ang matigas na tinapay.".
Definition recipe_french_toast := "French Toast / Toasted Bread with itlog".
Definition recipe_bread_pudding := "Bread Pudding sa Kaldero".
Definition tip_rice := "Gawing sinangag ang natirang kanin—perfect for breakfast!".
Definition recipe_sinangag := "Sinangag with Garlic at gulay".
Definition recipe_arroz_caldo := "Arroz Caldo kung sabaw ang hanap".
Definition tip_gulay := "Gamitin sa stir-fry o soup ang nalalantang gulay.".
Definition recipe_stir_fry := "Gulay Stir-fry na may toyo at bawang".
Definition recipe_pickled := "Pickled Gulay para tumagal".
Definition tip_jars := "Repurpose jars/containers for storage.".
Definition tip_donate := "Donate locally para hindi mapunta sa landfill.".
Definition fallback_tip := "Check your fridge first—baka pwedeng i-recipe na! 😄".
Definition fallback_recipe := "Fried Rice ng Bahay".

(** [description or ''] *)
Definition or_empty (description : option string) : string :=
  match description with
  | Some d => d
  | None => ""
  end.

(** [f"{title} {description or ''}".lower()] *)
Definition tipid_text (title : string) (description : option string) : string :=
  lower (title ++ " " ++ or_empty description).

(** [category == "household"] for an optional string. *)
Definition category_is (category : option string) (name : string) : bool :=
  match category with
  | Some c => String.eqb c name
  | None => false
  end.

Definition is_empty (l : list string) : bool :=
  match l with
  | [] => true
  | _ :: _ => false
  end.

Definition _generate_tipid_suggestions
    (title : string) (description category : option string) : message :=
  let text := tipid_text title description in
  let st := {| acc_tips := []; acc_recipes := [] |} in
  let st :=
    if contains "banana" text then
      add_recipe recipe_maruya
        (add_recipe recipe_smoothie
           (add_recipe recipe_banana_bread (add_tip tip_banana st)))
    else st in
  let st :=
    if contains "bread" text || contains "tinapay" text then
      add_recipe recipe_bread_pudding
        (add_recipe recipe_french_toast (add_tip tip_bread st))
    else st in
  let st :=
    if contains "rice" text || contains "kanin" text then
      add_recipe recipe_arroz_caldo
        (add_recipe recipe_sinangag (add_tip tip_rice st))
    else st in
  let st :=
    if contains "vegetable" text || contains "gulay" text
       || contains "lettuce" text || contains "carrot" text then
      add_recipe recipe_pickled
        (add_recipe recipe_stir_fry (add_tip tip_gulay st))
    else st in
  let st :=
    if category_is category "household" then
      add_tip tip_donate (add_tip tip_jars st)
    else st in
  let st :=
    if is_empty (acc_tips st) && is_empty (acc_recipes st) then
      add_recipe fallback_recipe (add_tip fallback_tip st)
    else st in
  {| mascot_name := "Cen-'tipid'";
     mascot_tagline := "Pag 'di na kailangan, wag itapon—I-Bigay o I-kusina!";
     tips := acc_tips st;
     recipes := acc_recipes st |}.

(** [tipid_ai] hands the three request fields to the engine. *)
Definition tipid_ai (title : string) (description category : option string) : message :=
  _generate_tipid_suggestions title description category.

(** *** The rule table of the engine, as data

    The declarative reading of the engine: an ordered table of rules, each
    with its trigger and the strings it tries to append. *)

Record rule : Type := {
  fires : string -> option string -> bool;
  rule_tips : list string;
  rule_recipes : list string
}.

Definition any_in (needles : list string) (text : string) : bool :=
  existsb (fun n => contains n text) needles.

Definition rule_table : list rule :=
  [ {| fires := fun text _ => any_in ["banana"] text;
       rule_tips := [tip_banana];
       rule_recipes := [recipe_banana_bread; recipe_smoothie; recipe_maruya] |};
    {| fires := fun text _ => any_in ["bread"; "tinapay"] text;
       rule_tips := [tip_bread];
       rule_recipes := [recipe_french_toast; recipe_bread_pudding] |};
    {| fires := fun text _ => any_in ["rice"; "kanin"] text;
       rule_tips := [tip_rice];
       rule_recipes := [recipe_sinangag; recipe_arroz_caldo] |};
    {| fires := fun text _ => any_in ["vegetable"; "gulay"; "lettuce"; "carrot"] text;
       rule_tips := [tip_gulay];
       rule_recipes := [recipe_stir_fry; recipe_pickled] |};
    {| fires := fun _ category => category_is category "household";
       rule_tips := [tip_jars; tip_donate];
       rule_recipes := [] |} ].

(** Whether some keyword rule matches the lower-cased text. *)
Definition keyword_rule_fired (title : string) (description : option string) : bool :=
  let text := tipid_text title description in
  any_in ["banana"] text
  || any_in ["bread"; "tinapay"] text
  || any_in ["rice"; "kanin"] text
  || any_in ["vegetable"; "gulay"; "lettuce"; "carrot"] text.

(** Whether some rule of the table fires. *)
Definition rule_fired (title : string) (description category : option string) : bool :=
  existsb (fun r => fires r (tipid_text title description) category) rule_table.

(** The strings the fired rules try to append, in rule order. *)
Definition attempted_tips (title : string) (description category : option string)
  : list string :=
  flat_map (fun r => if fires r (tipid_text title description) category
                     then rule_tips r else []) rule_table.

Definition attempted_recipes (title : string) (description category : option string)
  : list string :=
  flat_map (fun r => if fires r (tipid_text title description) category
                     then rule_recipes r else []) rule_table.

(** A sequence with every repeated occurrence after the first removed. *)
Definition first_seen (l : list string) : list string :=
  rev (nodup string_dec (rev l)).

(** Number of occurrences of a string in a list. *)
Definition occurrences (x : string) (l : list string) : nat :=
  count_occ string_dec l x.

(* ------------------------------------------------------------------ *)
(** ** Python runtime: values and documents *)

(** The values a stored document holds. An [ObjectId] carries its [str()]
    and a [datetime] its [isoformat()]: the only operations the code
    applies to them. *)
Inductive value : Type :=
| VNone
| VBool (b : bool)
| VInt (z : Z)
| VFloat (r : R)
| VStr (s : string)
| VObjectId (hex : string)
| VDatetime (iso : string).

Definition doc : Type := list (string * value).

Fixpoint dict_get (k : string) (d : doc) : option value :=
  match d with
  | [] => None
  | (k', v) :: rest => if String.eqb k' k then Some v else dict_get k rest
  end.

(** [d[k] = v]: a present key keeps its position, a new key goes last. *)
Fixpoint dict_set (k : string) (v : value) (d : doc) : doc :=
  match d with
  | [] => [(k, v)]
  | (k', v') :: rest =>
      if String.eqb k' k then (k, v) :: rest else (k', v') :: dict_set k v rest
  end.

(** [d.get(k, default)] *)
Definition py_get_default (k : string) (default : value) (d : doc) : value :=
  match dict_get k d with
  | Some v => v
  | None => default
  end.

(** [d.get(k)] *)
Definition py_get (k : string) (d : doc) : value := py_get_default k VNone d.

Definition Rltb (x y : R) : bool := if Rlt_dec x y then true else false.
Definition Rleb (x y : R) : bool := if Rle_dec x y then true else false.
Definition Reqb (x y : R) : bool := if Req_dec_T x y then true else false.

(** Truth value of an object, as [or], [and], [not] and [if] take it. *)
Definition truthy (v : value) : bool :=
  match v with
  | VNone => false
  | VBool b => b
  | VInt z => negb (z =? 0)%Z
  | VFloat r => negb (Reqb r 0)
  | VStr s => negb (String.eqb s "")
  | VObjectId _ => true
  | VDatetime _ => true
  end.

(** [a or b] *)
Definition py_or (a b : value) : value := if truthy a then a else b.

(** [v is False] *)
Definition is_False (v : value) : bool :=
  match v with
  | VBool false => true
  | _ => false
  end.

(** [v.lower()]: only a [str] has the method. *)
Definition py_lower (v : value) : result string :=
  match v with
  | VStr s => Ok (lower s)
  | _ => Raise AttributeError
  end.

(** *** [float(str)]: decimal literals *)


Definition digit_of (c : ascii) : option Z :=
  let n := N_of_ascii c in
  if ((48 <=? n) && (n <=? 57))%N then Some (Z.of_N n - 48)%Z else None.


Fixpoint string_rev_onto (s acc : string) : string :=
  match s with
  | EmptyString => acc
  | String c rest => string_rev_onto rest (String c acc)
  end.

Definition string_rev (s : string) : string := string_rev_onto s "".


(** The blanks [float(..)] skips around an ASCII text: tab to carriage
    return, and the space. *)
Definition is_float_blank (c : ascii) : bool :=
  let n := N_of_ascii c in
  (((9 <=? n) && (n <=? 13)) || (n =? 32))%N.

Fixpoint float_lstrip (s : string) : string :=
  match s with
  | String c rest => if is_float_blank c then float_lstrip rest else s
  | EmptyString => s
  end.

Definition float_strip (s : string) : string :=
  string_rev (float_lstrip (string_rev (float_lstrip s))).

(** The rest of a digit part, one digit already read: digits, each
    optionally preceded by one underscore. Returns the value read so far,
    the number of digits read and the unread text. *)
Fixpoint more_digits (acc : Z) (n : Z) (s : string) : Z * Z * string :=
  match s with
  | EmptyString => (acc, n, s)
  | String c rest =>
      match digit_of c with
      | Some d => more_digits (10 * acc + d) (n + 1) rest
      | None =>
          if Ascii.eqb c "_" then
            match rest with
            | EmptyString => (acc, n, s)
            | String c' rest' =>
                match digit_of c' with
                | Some d => more_digits (10 * acc + d) (n + 1) rest'
                | None => (acc, n, s)
                end
            end
          else (acc, n, s)
      end
  end.

(** A digit part, continuing the value [acc]; [None] when [s] does not start
    with a digit. *)
Definition digit_part (acc : Z) (s : string) : option (Z * Z * string) :=
  match s with
  | EmptyString => None
  | String c rest =>
      match digit_of c with
      | Some d => Some (more_digits (10 * acc + d) 1 rest)
      | None => None
      end
  end.

(** An optional sign: [true] for minus. *)
Definition sign_part (s : string) : bool * string :=
  match s with
  | String "-" rest => (true, rest)
  | String "+" rest => (false, rest)
  | _ => (false, s)
  end.

(** The mantissa [[digitpart] "." digitpart | digitpart ["."]]: its digits
    read as one integer, the number of digits after the point, the rest. *)
Definition mantissa_part (s : string) : option (Z * Z * string) :=
  match digit_part 0 s with
  | Some (m, _, String "." rest) =>
      match digit_part m rest with
      | Some (m', nfrac, rest') => Some (m', nfrac, rest')
      | None => Some (m, 0%Z, rest)
      end
  | Some (m, _, rest) => Some (m, 0%Z, rest)
  | None =>
      match s with
      | String "." rest => digit_part 0 rest
      | _ => None
      end
  end.

(** The exponent [("e" | "E") [sign] digitpart], absent when [s] is empty. *)
Definition exponent_part (s : string) : option Z :=
  match s with
  | EmptyString => Some 0%Z
  | String c rest =>
      if Ascii.eqb c "e" || Ascii.eqb c "E" then
        let (neg, rest1) := sign_part rest in
        match digit_part 0 rest1 with
        | Some (e, _, EmptyString) => Some (if neg then (- e)%Z else e)
        | _ => None
        end
      else None
  end.

(** [float(s)] for a string: the decimal literals with a finite value. The
    literals of the non-finite floats ([inf], [infinity], [nan]) denote no
    real number and texts beyond ASCII hold digits and blanks this parser
    does not know: both are outside the model, and the statements that
    depend on a conversion failing go through [conversion_error] below,
    which leaves them out. *)
Definition float_of_string (s : string) : result R :=
  let (neg, body) := sign_part (float_strip s) in
  match mantissa_part body with
  | Some (m, nfrac, rest) =>
      match exponent_part rest with
      | Some e =>
          let x := (IZR m * powerRZ 10 (e - nfrac))%R in
          Ok (if neg then (- x)%R else x)
      | None => Raise ValueError
      end
  | None => Raise ValueError
  end.

(** [float(v)] *)
Definition py_float (v : value) : result R :=
  match v with
  | VFloat r => Ok r
  | VInt z =>
      if (Z.abs z <? 2 ^ 1024 - 2 ^ 970)%Z then Ok (IZR z) else Raise OverflowError
  | VBool b => Ok (if b then 1%R else 0%R)
  | VStr s => float_of_string s
  | VNone | VObjectId _ | VDatetime _ => Raise TypeError
  end.

(** Text made of ASCII characters only. *)
Fixpoint is_ascii (s : string) : bool :=
  match s with
  | EmptyString => true
  | String c rest => (N_of_ascii c <? 128)%N && is_ascii rest
  end.

(** A spelling of a non-finite float: [inf], [infinity] or [nan] in any
    case, with an optional sign, blanks around. *)
Definition nonfinite_literal (s : string) : bool :=
  let (_, body) := sign_part (float_strip s) in
  one_of (lower body) ["inf"; "infinity"; "nan"].

(** The exception [float(v)] raises, for the values on which it does:
    [TypeError] for null, an identifier or a date, [OverflowError] for an
    integer beyond the floats, [ValueError] for an ASCII text that is
    neither a decimal literal nor a spelling of a non-finite float. On
    every other value, the texts outside the model included, [None]. *)
Definition conversion_error (v : value) : option exn :=
  match v with
  | VNone | VObjectId _ | VDatetime _ => Some TypeError
  | VInt z =>
      if (Z.abs z <? 2 ^ 1024 - 2 ^ 970)%Z then None else Some OverflowError
  | VStr s =>
      if is_ascii s && negb (nonfinite_literal s) then
        match float_of_string s with
        | Raise e => Some e
        | Ok _ => None
        end
      else None
  | VBool _ | VFloat _ => None
  end.

(** *** Numbers: rounding and ordering *)

(** The value of a number ([bool], [int] or [float]) on the real line. *)
Definition as_real (v : value) : option R :=
  match v with
  | VBool b => Some (if b then 1%R else 0%R)
  | VInt z => Some (IZR z)
  | VFloat r => Some r
  | _ => None
  end.

(** Nearest integer, ties to the even one. *)
Definition round_half_even (x : R) : Z :=
  let f := Zfloor x in
  let d := (x - IZR f)%R in
  if Rlt_dec d (1 / 2) then f
  else if Rlt_dec (1 / 2) d then (f + 1)%Z
  else if Z.even f then f else (f + 1)%Z.

(** [round(x, 2)] for a float. *)
Definition round2 (x : R) : R := (IZR (round_half_even (x * 100)) / 100)%R.

(** [round(v, 2)]: a float is rounded, an [int] comes back as it is. *)
Definition py_round2 (v : value) : result value :=
  match v with
  | VFloat r => Ok (VFloat (round2 r))
  | VInt z => Ok (VInt z)
  | VBool b => Ok (VInt (if b then 1 else 0))
  | _ => Raise TypeError
  end.

(** [a < b]: numbers by value, strings by code point; ordering of other
    pairs is not something this program reaches and raises here. *)
Definition py_lt (a b : value) : result bool :=
  match as_real a, as_real b with
  | Some x, Some y => Ok (Rltb x y)
  | _, _ =>
      match a, b with
      | VStr s, VStr t => Ok (String.ltb s t)
      | _, _ => Raise TypeError
      end
  end.

(** [a <= b] *)
Definition py_le (a b : value) : result bool :=
  match as_real a, as_real b with
  | Some x, Some y => Ok (Rleb x y)
  | _, _ =>
      match a, b with
      | VStr s, VStr t => Ok (String.leb s t)
      | _, _ => Raise TypeError
      end
  end.

(** [l.sort(key=key)]: a stable sort that compares keys with [<] only.
    Each element goes in front of the already sorted tail, behind the
    elements of it whose key is smaller. *)
Fixpoint insert_by_key (kx : value * doc) (l : list (value * doc))
  : result (list (value * doc)) :=
  match l with
  | [] => Ok [kx]
  | ky :: rest =>
      smaller <- py_lt (fst ky) (fst kx) ;;
      if smaller then (rest' <- insert_by_key kx rest ;; Ok (ky :: rest'))
      else Ok (kx :: ky :: rest)
  end.

Fixpoint sort_keyed (l : list (value * doc)) : result (list (value * doc)) :=
  match l with
  | [] => Ok []
  | kx :: rest => sorted <- sort_keyed rest ;; insert_by_key kx sorted
  end.

Definition py_sort (key : doc -> value) (l : list doc) : result (list doc) :=
  sorted <- sort_keyed (map (fun x => (key x, x)) l) ;;
  Ok (map snd sorted).

(* ------------------------------------------------------------------ *)
(** ** Utilities of [main.py] *)

Definition serialize_id (v : value) : value :=
  match v with
  | VObjectId hex => VStr hex
  | _ => v
  end.

(** One turn of the loop of [serialize_doc]. *)
Definition serialize_entry (out : doc) (kv : string * value) : doc :=
  let (k, v) := kv in
  if String.eqb k "_id" then dict_set "id" (serialize_id v) out
  else
    match v with
    | VObjectId hex => dict_set k (VStr hex) out
    | VDatetime iso => dict_set k (VStr iso) out
    | _ => dict_set k v out
    end.

Definition serialize_doc (d : doc) : doc :=
  match d with
  | [] => d
  | _ :: _ => fold_left serialize_entry d []
  end.

(* ------------------------------------------------------------------ *)
(** ** Geo distance *)

Open Scope R_scope.

(** [math.radians] *)
Definition radians (deg : R) : R := deg * (PI / 180).

(** [math.sqrt]: a negative argument is a [ValueError]. *)
Definition py_sqrt (x : R) : result R :=
  if Rlt_dec x 0 then Raise ValueError else Ok (sqrt x).

(** [math.atan2 y x]: the angle of the point [(x, y)], in [(-PI, PI]]. *)
Definition atan2 (y x : R) : R :=
  if Rlt_dec 0 x then atan (y / x)
  else if Rlt_dec x 0 then
    (if Rle_dec 0 y then atan (y / x) + PI else atan (y / x) - PI)
  else if Rlt_dec 0 y then PI / 2
  else if Rlt_dec y 0 then - (PI / 2)
  else 0.

Definition _haversine_km (lat1 lon1 lat2 lon2 : R) : result R :=
  let R_ := 6371.0 in
  let dlat := radians (lat2 - lat1) in
  let dlon := radians (lon2 - lon1) in
  let a := sin (dlat / 2) ^ 2
           + cos (radians lat1) * cos (radians lat2) * sin (dlon / 2) ^ 2 in
  sa <- py_sqrt a ;;
  sb <- py_sqrt (1 - a) ;;
  let c := 2 * atan2 sa sb in
  Ok (R_ * c).

(* ------------------------------------------------------------------ *)
(** ** Proximity search *)

(** The [try ... except Exception] of [list_items]: the distance of a
    serialized document from the centre, or the integer 9999. *)
Definition item_dist (lat lng : R) (d_ser : doc) : value :=
  match (lat2 <- py_float (py_get "location_lat" d_ser) ;;
         lng2 <- py_float (py_get "location_lng" d_ser) ;;
         _haversine_km lat lng lat2 lng2) with
  | Ok dist => VFloat dist
  | Raise _ => VInt 9999
  end.

(** One turn of the loop of [list_items] over [docs]. *)
Definition list_items_step (lat lng radius_km : R) (enriched : list doc) (d : doc)
  : result (list doc) :=
  let d_ser := serialize_doc d in
  let dist := item_dist lat lng d_ser in
  rounded <- py_round2 dist ;;
  let d_ser := dict_set "distance_km" rounded d_ser in
  within <- py_le dist (VFloat radius_km) ;;
  if within && truthy (py_get_default "available" (VBool true) d_ser)
  then Ok (enriched ++ [d_ser])
  else Ok enriched.

(** [list_items], on the documents [get_documents("item")] returned. *)
Definition list_items (lat lng radius_km : R) (docs : list doc) : result (list doc) :=
  enriched <- for_each (list_items_step lat lng radius_km) docs [] ;;
  py_sort (fun x => py_get_default "distance_km" (VInt 9999) x) enriched.

(* ------------------------------------------------------------------ *)
(** ** Diversion aggregator *)

Record stats : Type := {
  items_shared : nat;
  people_helped : nat;
  kilograms_diverted : R
}.

(** One turn of the loop of [user_stats]; the state is
    [(people_helped, kg_diverted)]. *)
Definition user_stats_step (st : nat * R) (it : doc) : result (nat * R) :=
  let (people_helped, kg_diverted) := st in
  let qty := py_or (py_get "quantity" it) (VInt 0) in
  unit <- py_lower (py_or (py_get "unit" it) (VStr "")) ;;
  kg_diverted <-
    (if one_of unit ["kg"; "kilo"; "kilogram"; "kilograms"] then
       q <- py_float qty ;; Ok (kg_diverted + q)
     else if one_of unit ["g"; "gram"; "grams"] then
       q <- py_float qty ;; Ok (kg_diverted + q / 1000.0)
     else if one_of unit ["lb"; "lbs"; "pound"; "pounds"] then
       q <- py_float qty ;; Ok (kg_diverted + q * 0.453592)
     else
       q <- py_float qty ;; Ok (kg_diverted + q * 0.2)) ;;
  let people_helped :=
    if is_False (py_get_default "available" (VBool true) it)
    then S people_helped else people_helped in
  Ok (people_helped, kg_diverted).

(** [user_stats], on the documents [get_documents("item", {"user_id": ..})]
    returned. *)
Definition user_stats (items : list doc) : result stats :=
  let total_items := List.length items in
  st <- for_each user_stats_step items (0%nat, 0.0) ;;
  let (people_helped, kg_diverted) := st in
  Ok {| items_shared := total_items;
        people_helped := people_helped;
        kilograms_diverted := round2 kg_diverted |}.

(* ------------------------------------------------------------------ *)
(** ** Vocabulary of the statements *)

(** *** Suggestion engine *)

(** The lists of the rule-table reading of the engine: the strings of the
    fired rules in first-seen order, or the fallback when no string was
    collected. *)
Definition nothing_collected (title : string) (description category : option string)
  : bool :=
  is_empty (first_seen (attempted_tips title description category))
  && is_empty (first_seen (attempted_recipes title description category)).

Definition table_tips (title : string) (description category : option string)
  : list string :=
  if nothing_collected title description category then [fallback_tip]
  else first_seen (attempted_tips title description category).

Definition table_recipes (title : string) (description category : option string)
  : list string :=
  if nothing_collected title description category then [fallback_recipe]
  else first_seen (attempted_recipes title description category).

(** Neither accumulated list holds a string twice. *)
Definition unique_lists (st : lists) : Prop :=
  NoDup (acc_tips st) /\ NoDup (acc_recipes st).

(** *** Proximity search *)

(** The haversine term [a] of [_haversine_km]. *)
Definition haversine_a (lat1 lon1 lat2 lon2 : R) : R :=
  (sin (radians (lat2 - lat1) / 2) ^ 2
   + cos (radians lat1) * cos (radians lat2)
     * sin (radians (lon2 - lon1) / 2) ^ 2)%R.


(** What [serialize_doc] stores for a value under a key other than [_id]. *)
Definition serialize_value (v : value) : value :=
  match v with
  | VObjectId hex => VStr hex
  | VDatetime iso => VStr iso
  | other => other
  end.

(** A stored document holds each key once. *)
Definition unique_keys (d : doc) : Prop := NoDup (map fst d).

(** The distance [list_items] assigns to a stored document. *)
Definition assigned_dist (lat lng : R) (d : doc) : value :=
  item_dist lat lng (serialize_doc d).

(** The same distance as a real number. *)
Definition distance (lat lng : R) (d : doc) : R :=
  match assigned_dist lat lng d with
  | VFloat r => r
  | _ => 9999
  end.

(** Whether both location fields of a document convert to numbers. *)
Definition location_parses (d : doc) : bool :=
  match py_float (py_get "location_lat" (serialize_doc d)),
        py_float (py_get "location_lng" (serialize_doc d)) with
  | Ok _, Ok _ => true
  | _, _ => false
  end.

(** [float(..)] raises on the latitude or on the longitude of a document:
    the field is missing, null, an integer beyond the floats, or an ASCII
    text that spells no float. *)
Definition location_unconvertible (d : doc) : bool :=
  match conversion_error (py_get "location_lat" (serialize_doc d)),
        conversion_error (py_get "location_lng" (serialize_doc d)) with
  | None, None => false
  | _, _ => true
  end.

(** The availability flag as the search reads it: absent means available. *)
Definition available (d : doc) : bool :=
  truthy (py_get_default "available" (VBool true) (serialize_doc d)).

(** The filter of the search. *)
Definition retained (lat lng radius_km : R) (d : doc) : bool :=
  Rleb (distance lat lng d) radius_km && available d.

Definition rounded (v : value) : value :=
  match v with
  | VFloat r => VFloat (round2 r)
  | other => other
  end.

(** A document as the search returns it. *)
Definition annotate (lat lng : R) (d : doc) : doc :=
  dict_set "distance_km" (rounded (assigned_dist lat lng d)) (serialize_doc d).

(** The [distance_km] field of a returned document, as a real number. *)
Definition distance_km (x : doc) : R :=
  match as_real (py_get_default "distance_km" (VInt 9999) x) with
  | Some r => r
  | None => 9999
  end.

(** Stable insertion sort on real keys: the order [py_sort] produces when
    every key is a number. *)
Fixpoint insert_by {A : Type} (key : A -> R) (x : A) (l : list A) : list A :=
  match l with
  | [] => [x]
  | y :: rest =>
      if Rltb (key y) (key x) then y :: insert_by key x rest
      else x :: y :: rest
  end.

Fixpoint sort_by {A : Type} (key : A -> R) (l : list A) : list A :=
  match l with
  | [] => []
  | x :: rest => insert_by key x (sort_by key rest)
  end.

(** Sample documents: one at the centre (0, 0), one 0.01 degree north of
    it, one whose latitude is a word and whose longitude is missing. *)
Definition item_at_origin : doc :=
  [("_id", VObjectId "65f1c0ffee0123456789abcd"); ("title", VStr "Saging");
   ("location_lat", VFloat 0); ("location_lng", VFloat 0);
   ("available", VBool true)].

Definition item_no_location : doc :=
  [("title", VStr "Mystery box"); ("location_lat", VStr "north")].

(** *** Diversion aggregator *)

(** Schema of a stored item, as far as the aggregator reads it: the
    quantity is absent, null or a number a float can hold, the unit is
    absent, null or text. *)
Definition numeric_or_absent (v : value) : bool :=
  match v with
  | VNone | VBool _ | VFloat _ => true
  | VInt z => (Z.abs z <? 2 ^ 1024 - 2 ^ 970)%Z
  | _ => false
  end.

Definition text_or_absent (v : value) : bool :=
  match v with
  | VNone | VStr _ => true
  | _ => false
  end.

Definition well_formed_item (it : doc) : bool :=
  numeric_or_absent (py_get "quantity" it) && text_or_absent (py_get "unit" it).

(** The quantity of an item, 0 when absent. *)
Definition quantity_of (it : doc) : R :=
  match as_real (py_get "quantity" it) with
  | Some q => q
  | None => 0
  end.

(** The unit text of an item, empty when absent. *)
Definition unit_of (it : doc) : string :=
  match py_get "unit" it with
  | VStr s => s
  | _ => ""
  end.

(** Kilograms per unit of quantity, for a unit name already normalised. *)
Definition factor_of (unit : string) : R :=
  if one_of unit ["kg"; "kilo"; "kilogram"; "kilograms"] then 1
  else if one_of unit ["g"; "gram"; "grams"] then 1 / 1000
  else if one_of unit ["lb"; "lbs"; "pound"; "pounds"] then 0.453592
  else 0.2.


(** The unit matched case-insensitively, surrounding blanks kept. *)
Definition factor_untrimmed (it : doc) : R := factor_of (lower (unit_of it)).

Definition sum_R (l : list R) : R := fold_right Rplus 0 l.

(** Items whose [available] flag is the boolean [False]. *)
Definition explicitly_unavailable (it : doc) : bool :=
  match dict_get "available" it with
  | Some (VBool false) => true
  | _ => false
  end.

(** The statistics computed with a given per-item factor. *)
Definition stats_with (factor : doc -> R) (items : list doc) : stats :=
  {| items_shared := List.length items;
     people_helped := List.length (filter explicitly_unavailable items);
     kilograms_diverted :=
       round2 (sum_R (map (fun it => quantity_of it * factor it) items)) |}.

(** Sample items: two well-formed ones, one whose unit carries a blank,
    one with a text for a quantity, one with a negative quantity. *)
Definition item_2kg : doc :=
  [("quantity", VFloat 2); ("unit", VStr "kg"); ("available", VBool true)].

Definition item_500g_claimed : doc :=
  [("quantity", VFloat 500); ("unit", VStr "g"); ("available", VBool false)].


Definition item_text_quantity : doc :=
  [("quantity", VStr "abc"); ("unit", VStr "kg")].

Definition item_negative : doc :=
  [("quantity", VFloat (-5)); ("unit", VStr "kg")].

(** *** Serialized documents *)

(** [get_messages], on the documents
    [get_documents("message", {"chat_id": chat_id})] returned. *)
Definition get_messages (docs : list doc) : list doc := map serialize_doc docs.

Definition is_object_id (v : value) : bool :=
  match v with
  | VObjectId _ => true
  | _ => false
  end.

Definition is_datetime (v : value) : bool :=
  match v with
  | VDatetime _ => true
  | _ => false
  end.

(** What every serialized document satisfies: each key once, no [_id]
    key, no [ObjectId] value, and a [datetime] value at most under [id]. *)
Definition json_ready (d : doc) : Prop :=
  NoDup (map fst d)
  /\ ~ In "_id" (map fst d)
  /\ Forall (fun kv => is_object_id (snd kv) = false) d
  /\ Forall (fun kv => is_datetime (snd kv) = true -> fst kv = "id") d.

(** A document that holds only values JSON has, under keys other than
    [_id], each once. *)
Definition plain_doc (d : doc) : Prop :=
  NoDup (map fst d)
  /\ ~ In "_id" (map fst d)
  /\ Forall (fun kv => is_object_id (snd kv) = false
                       /\ is_datetime (snd kv) = false) d.

(** The identifier of the document, if it has one, is not a [datetime]. *)
Definition no_datetime_id (d : doc) : Prop :=
  Forall (fun kv => fst kv = "_id" -> is_datetime (snd kv) = false) d.

(** *** More sample items *)

(** An item whose unit is a number, one whose quantity is an identifier,
    one whose quantity is the empty text. *)
Definition item_numeric_unit : doc :=
  [("quantity", VFloat 3); ("unit", VInt 5)].

Definition item_id_quantity : doc :=
  [("quantity", VObjectId "65f1c0ffee0123456789abcd"); ("unit", VStr "kg")].

Definition item_empty_quantity : doc :=
  [("quantity", VStr ""); ("unit", VStr "kg"); ("available", VBool false)].

(** *** Keywords of the suggestion engine *)

(** The trigger words of the four keyword rules, rule by rule. *)
Definition keyword_groups : list (list string) :=
  [ ["banana"]; ["bread"; "tinapay"]; ["rice"; "kanin"];
    ["vegetable"; "gulay"; "lettuce"; "carrot"] ].

Fixpoint no_space (s : string) : bool :=
  match s with
  | EmptyString => true
  | String c rest => negb (Ascii.eqb c " ") && no_space rest
  end.

(** *** Creating items *)

(** The request body of [create_item]; a [datetime] is held by its
    [isoformat()], as in [value]. *)
Record CreateItemRequest : Type := {
  req_user_id : string;
  req_title : string;
  req_description : option string;
  req_category : option string;
  req_quantity : option R;
  req_unit : option string;
  req_photo_url : option string;
  req_expiry_date : option string;
  req_location_lat : R;
  req_location_lng : R;
  req_barangay : option string
}.

Definition opt_str (o : option string) : value :=
  match o with
  | Some s => VStr s
  | None => VNone
  end.

Definition opt_float (o : option R) : value :=
  match o with
  | Some r => VFloat r
  | None => VNone
  end.

Definition opt_datetime (o : option string) : value :=
  match o with
  | Some iso => VDatetime iso
  | None => VNone
  end.

(** [req.model_dump()]: the fields in the order of the class. *)
Definition model_dump (req : CreateItemRequest) : doc :=
  [("user_id", VStr (req_user_id req));
   ("title", VStr (req_title req));
   ("description", opt_str (req_description req));
   ("category", opt_str (req_category req));
   ("quantity", opt_float (req_quantity req));
   ("unit", opt_str (req_unit req));
   ("photo_url", opt_str (req_photo_url req));
   ("expiry_date", opt_datetime (req_expiry_date req));
   ("location_lat", VFloat (req_location_lat req));
   ("location_lng", VFloat (req_location_lng req));
   ("barangay", opt_str (req_barangay req))].

(** [{**base, **data}]: the entries of [data] written over [base]. *)
Definition dict_update (base data : doc) : doc :=
  fold_left (fun out kv => dict_set (fst kv) (snd kv) out) data base.

(** [create_item]; [create_document] is the store's, taken by the
    identifier it returns. *)
Definition create_item (create_document : string -> doc -> string)
    (req : CreateItemRequest) : doc :=
  let data := model_dump req in
  let item_id := create_document "item" data in
  dict_update [("id", VStr item_id)] data.

(** A stored document that holds each key once and, under the keys the
    search and the aggregator read, what [create_item] handed to the
    store. *)
Definition stored_item (req : CreateItemRequest) (d : doc) : Prop :=
  unique_keys d
  /\ forall k : string,
       In k ["quantity"; "unit"; "available"; "location_lat"; "location_lng"] ->
       dict_get k d = dict_get k (model_dump req).

Definition sample_request : CreateItemRequest :=
  {| req_user_id := "u1"; req_title := "Saging"; req_description := None;
     req_category := Some "food"; req_quantity := Some 2%R;
     req_unit := Some "kg"; req_photo_url := None; req_expiry_date := None;
     req_location_lat := 0%R; req_location_lng := 0%R;
     req_barangay := None |}.

Close Scope R_scope.

(* ================================================================== *)
(** * Properties *)

(* ------------------------------------------------------------------ *)
(** ** Suggestion engine *)

Section Suggestions.

Lemma mem_In (x : string) (l : list string) : mem x l = true <-> In x l.
Proof.
  unfold mem. rewrite existsb_exists. split.
  - intros [y [Hy Heq]]. apply String.eqb_eq in Heq. now subst.
  - intros H. exists x. split; [assumption | apply String.eqb_refl].
Qed.

Lemma mem_false (x : string) (l : list string) : mem x l = false <-> ~ In x l.
Proof.
  rewrite <- mem_In. destruct (mem x l); split; intros; congruence.
Qed.

(** Appending unless present keeps a list free of repetitions. *)
Lemma NoDup_snoc_fresh (x : string) (l : list string) :
  NoDup l -> ~ In x l -> NoDup (l ++ [x]).
Proof.
  intros Hl Hx. apply NoDup_rev in Hl.
  rewrite <- (rev_involutive (l ++ [x])). apply NoDup_rev.
  rewrite rev_app_distr. simpl. constructor; [| assumption].
  now rewrite <- in_rev.
Qed.

Lemma unique_add_tip (t : string) (st : lists) :
  unique_lists st -> unique_lists (add_tip t st).
Proof.
  intros [Ht Hr]. unfold add_tip. destruct (mem t (acc_tips st)) eqn:E.
  - now split.
  - split; simpl; [| assumption].
    apply NoDup_snoc_fresh; [assumption | now apply mem_false].
Qed.

Lemma unique_add_recipe (r : string) (st : lists) :
  unique_lists st -> unique_lists (add_recipe r st).
Proof.
  intros [Ht Hr]. unfold add_recipe. destruct (mem r (acc_recipes st)) eqn:E.
  - now split.
  - split; simpl; [assumption |].
    apply NoDup_snoc_fresh; [assumption | now apply mem_false].
Qed.

Lemma unique_if (c : bool) (a b : lists) :
  unique_lists a -> unique_lists b -> unique_lists (if c then a else b).
Proof. now destruct c. Qed.

Lemma unique_start : unique_lists {| acc_tips := []; acc_recipes := [] |}.
Proof. split; constructor. Qed.

(** The lists only grow at the end: what was collected keeps its place. *)
Lemma add_tip_extends (t : string) (st : lists) :
  exists suffix, acc_tips (add_tip t st) = acc_tips st ++ suffix
                 /\ acc_recipes (add_tip t st) = acc_recipes st.
Proof.
  unfold add_tip. destruct (mem t (acc_tips st)).
  - exists []. now rewrite app_nil_r.
  - now exists [t].
Qed.

Lemma add_recipe_extends (r : string) (st : lists) :
  exists suffix, acc_recipes (add_recipe r st) = acc_recipes st ++ suffix
                 /\ acc_tips (add_recipe r st) = acc_tips st.
Proof.
  unfold add_recipe. destruct (mem r (acc_recipes st)).
  - exists []. now rewrite app_nil_r.
  - now exists [r].
Qed.

(** Guarded appends compute the first-seen order of what they were given. *)
Lemma first_seen_snoc (l : list string) (x : string) :
  first_seen (l ++ [x]) = if mem x (first_seen l) then first_seen l
                          else first_seen l ++ [x].
Proof.
  unfold first_seen. rewrite rev_app_distr. simpl.
  destruct (in_dec string_dec x (rev l)) as [Hin | Hout].
  - assert (H : mem x (rev (nodup string_dec (rev l))) = true).
    { apply mem_In. rewrite <- in_rev. now apply nodup_In. }
    now rewrite H.
  - assert (H : mem x (rev (nodup string_dec (rev l))) = false).
    { apply mem_false. rewrite <- in_rev. now rewrite nodup_In. }
    now rewrite H.
Qed.

Lemma add_tips_first_seen (ts : list string) :
  acc_tips (fold_left (fun st t => add_tip t st) ts
              {| acc_tips := []; acc_recipes := [] |})
  = first_seen ts.
Proof.
  induction ts as [| t ts IH] using rev_ind.
  - reflexivity.
  - rewrite fold_left_app. simpl. rewrite first_seen_snoc, <- IH.
    unfold add_tip. now destruct (mem t _).
Qed.

Lemma any_in_1 (a text : string) : any_in [a] text = contains a text.
Proof. unfold any_in. simpl. apply orb_false_r. Qed.

Lemma any_in_2 (a b text : string) :
  any_in [a; b] text = contains a text || contains b text.
Proof. unfold any_in. simpl. now rewrite orb_false_r. Qed.

Lemma any_in_4 (a b c d text : string) :
  any_in [a; b; c; d] text
  = contains a text || contains b text || contains c text || contains d text.
Proof. unfold any_in. simpl. now rewrite orb_false_r, !orb_assoc. Qed.

Lemma rule_fired_split (title : string) (description category : option string) :
  rule_fired title description category
  = keyword_rule_fired title description || category_is category "household".
Proof.
  unfold rule_fired, keyword_rule_fired, rule_table.
  cbn [existsb fires]. unfold any_in. cbn [existsb].
  repeat rewrite orb_false_r. repeat rewrite orb_assoc. reflexivity.
Qed.

End Suggestions.

(** Splits the engine and its table reading along the five rule conditions. *)
Ltac split_rules title description category :=
  unfold _generate_tipid_suggestions, table_tips, table_recipes,
    nothing_collected, attempted_tips, attempted_recipes, rule_fired,
    keyword_rule_fired, rule_table;
  cbn [flat_map existsb fires rule_tips rule_recipes tips recipes];
  rewrite ?any_in_1, ?any_in_2, ?any_in_4;
  generalize (contains "banana" (tipid_text title description));
  generalize (contains "bread" (tipid_text title description)
              || contains "tinapay" (tipid_text title description));
  generalize (contains "rice" (tipid_text title description)
              || contains "kanin" (tipid_text title description));
  generalize (contains "vegetable" (tipid_text title description)
              || contains "gulay" (tipid_text title description)
              || contains "lettuce" (tipid_text title description)
              || contains "carrot" (tipid_text title description));
  generalize (category_is category "household");
  intros household gulay rice bread banana.

Lemma tipid_refines_table (title : string) (description category : option string) :
  tips (_generate_tipid_suggestions title description category)
  = table_tips title description category
  /\ recipes (_generate_tipid_suggestions title description category)
     = table_recipes title description category.
Proof.
  split_rules title description category.
  destruct banana, bread, rice, gulay, household; vm_compute; split; reflexivity.
Qed.

Lemma tipid_lists_unique (title : string) (description category : option string) :
  NoDup (tips (_generate_tipid_suggestions title description category))
  /\ NoDup (recipes (_generate_tipid_suggestions title description category)).
Proof.
  unfold _generate_tipid_suggestions. cbn [tips recipes].
  match goal with
  | |- NoDup (acc_tips ?st) /\ _ => change (unique_lists st)
  end.
  repeat first
    [ apply unique_start
    | apply unique_add_tip
    | apply unique_add_recipe
    | apply unique_if ].
Qed.

(** C7. The tips and the recipes of a suggestion hold no string twice and
    list the strings of the fired rules in the order they were first
    appended, whatever rules fire together. "Overripe bananas" alone yields
    the freeze-banana tip once and exactly the three banana recipes, also
    when the description mentions bananas again; a text that triggers three
    rules gets the strings of all three. *)
Theorem tipid_unique_first_seen :
  (forall (title : string) (description category : option string),
      let r := _generate_tipid_suggestions title description category in
      NoDup (tips r) /\ NoDup (recipes r)
      /\ tips r = table_tips title description category
      /\ recipes r = table_recipes title description category)
  /\ (let r := _generate_tipid_suggestions "Overripe bananas" None None in
      tips r = [tip_banana]
      /\ occurrences tip_banana (tips r) = 1%nat
      /\ recipes r = [recipe_banana_bread; recipe_smoothie; recipe_maruya])
  /\ (let r := _generate_tipid_suggestions
                 "Overripe bananas" (Some "Three BANANAS, very ripe") None in
      tips r = [tip_banana]
      /\ occurrences tip_banana (tips r) = 1%nat
      /\ recipes r = [recipe_banana_bread; recipe_smoothie; recipe_maruya])
  /\ (let r := _generate_tipid_suggestions
                 "Banana bread" (Some "with leftover rice") (Some "household") in
      tips r = [tip_banana; tip_bread; tip_rice; tip_jars; tip_donate]
      /\ recipes r = [recipe_banana_bread; recipe_smoothie; recipe_maruya;
                      recipe_french_toast; recipe_bread_pudding;
                      recipe_sinangag; recipe_arroz_caldo]).
Proof.
  split; [| repeat split; vm_compute; reflexivity].
  intros title description category r. subst r.
  destruct (tipid_lists_unique title description category) as [Ht Hr].
  destruct (tipid_refines_table title description category) as [Et Er].
  repeat split; assumption.
Qed.

(** C8. The engine is a total function: it answers every input, the empty
    strings included, and always with at least one tip. It answers with
    exactly the fallback tip and the fallback recipe if and only if no
    rule fired, neither a keyword rule nor the household rule; so a text
    without keywords in category "food" gets the fallback pair. *)
Theorem tipid_fallback_iff_no_rule :
  (forall (title : string) (description category : option string),
      let r := _generate_tipid_suggestions title description category in
      (rule_fired title description category = false
       <-> tips r = [fallback_tip] /\ recipes r = [fallback_recipe])
      /\ rule_fired title description category
         = keyword_rule_fired title description || category_is category "household"
      /\ tips r <> [])
  /\ (let r := _generate_tipid_suggestions "" None None in
      tips r = [fallback_tip] /\ recipes r = [fallback_recipe])
  /\ (let r := _generate_tipid_suggestions "" (Some "") (Some "") in
      tips r = [fallback_tip] /\ recipes r = [fallback_recipe])
  /\ (let r := _generate_tipid_suggestions
                 "Old wooden chair" (Some "Still sturdy") (Some "food") in
      keyword_rule_fired "Old wooden chair" (Some "Still sturdy") = false
      /\ tips r = [fallback_tip] /\ recipes r = [fallback_recipe]).
Proof.
  split; [| repeat split; vm_compute; reflexivity].
  intros title description category r. subst r.
  split; [| split; [apply rule_fired_split |]].
  - split_rules title description category.
    destruct banana, bread, rice, gulay, household; vm_compute;
      (split; [intros H; first [discriminate H | split; reflexivity]
              | intros [H1 H2]; first [reflexivity | discriminate H1 | discriminate H2]]).
  - split_rules title description category.
    destruct banana, bread, rice, gulay, household; vm_compute; discriminate.
Qed.

(** C10. The household rule compares the category with the lowercase word
    "household" exactly. For any other category, "Household" included, the
    two household tips are not added, and when the text matches no keyword
    rule either, the answer is the fallback tip and the fallback recipe. *)
Theorem household_rule_exact_match
    (title : string) (description category : option string) :
  category <> Some "household" ->
  let r := _generate_tipid_suggestions title description category in
  ~ In tip_jars (tips r) /\ ~ In tip_donate (tips r)
  /\ (keyword_rule_fired title description = false ->
      tips r = [fallback_tip] /\ recipes r = [fallback_recipe]).
Proof.
  intros Hcat r. subst r.
  assert (Hh : category_is category "household" = false).
  { destruct category as [c |]; [| reflexivity]. simpl.
    apply String.eqb_neq. intros ->. now apply Hcat. }
  revert Hh. split_rules title description category. intros Hh. subst household.
  destruct banana, bread, rice, gulay; vm_compute;
    (split; [| split]);
    try (intros H; discriminate H);
    try (split; reflexivity);
    intros H; repeat (destruct H as [H | H]; [discriminate H |]); exact H.
Qed.

Lemma household_rule_exact_match_witness :
  Some "Household" <> Some "household"
  /\ keyword_rule_fired "Old chair" None = false
  /\ tips (_generate_tipid_suggestions "Old chair" None (Some "Household"))
     = [fallback_tip]
  /\ recipes (_generate_tipid_suggestions "Old chair" None (Some "Household"))
     = [fallback_recipe].
Proof.
  assert (Hne : Some "Household" <> Some "household") by discriminate.
  assert (Hkw : keyword_rule_fired "Old chair" None = false) by reflexivity.
  split; [exact Hne | split; [exact Hkw |]].
  exact (proj2 (proj2 (household_rule_exact_match
                         "Old chair" None (Some "Household") Hne)) Hkw).
Defined.

(* ------------------------------------------------------------------ *)
(** ** Rounding *)

Section Rounding.

Open Scope R_scope.

Lemma round_half_even_IZR (z : Z) : round_half_even (IZR z) = z.
Proof.
  unfold round_half_even. rewrite ZfloorZ.
  destruct (Rlt_dec (IZR z - IZR z) (1 / 2)) as [_ | H]; [reflexivity | lra].
Qed.

(** A number of hundredths is its own rounding. *)
Lemma round2_hundredths (z : Z) : round2 (IZR z / 100) = IZR z / 100.
Proof.
  unfold round2. replace (IZR z / 100 * 100) with (IZR z) by field.
  now rewrite round_half_even_IZR.
Qed.

Lemma round_half_even_nonneg (x : R) : 0 <= x -> (0 <= round_half_even x)%Z.
Proof.
  intros Hx. assert (H0 : (0 <= Zfloor x)%Z) by now apply Zfloor_lub.
  unfold round_half_even.
  destruct (Rlt_dec _ _); [assumption |].
  destruct (Rlt_dec _ _); [lia |].
  destruct (Z.even _); lia.
Qed.

Lemma round2_nonneg (x : R) : 0 <= x -> 0 <= round2 x.
Proof.
  intros Hx. unfold round2.
  assert (H : (0 <= round_half_even (x * 100))%Z)
    by (apply round_half_even_nonneg; lra).
  apply IZR_le in H. lra.
Qed.

(** The rounding is within half a hundredth of its argument. *)
Lemma round2_close (x : R) : Rabs (round2 x - x) <= 1 / 200.
Proof.
  unfold round2, round_half_even.
  pose proof (Zfloor_bound (x * 100)) as [Hlo Hhi].
  set (f := Zfloor (x * 100)) in *.
  apply Rabs_le.
  destruct (Rlt_dec _ _) as [H1 | H1].
  - lra.
  - destruct (Rlt_dec _ _) as [H2 | H2].
    + rewrite plus_IZR. lra.
    + destruct (Z.even f); [| rewrite plus_IZR]; lra.
Qed.

End Rounding.

(* ------------------------------------------------------------------ *)
(** ** Diversion aggregator *)

Section Aggregator.

Open Scope R_scope.

Lemma quantity_converts (v : value) :
  numeric_or_absent v = true ->
  py_float (py_or v (VInt 0))
  = Ok (match as_real v with Some q => q | None => 0 end).
Proof.
  unfold py_or. destruct v as [| b | z | r | s | h | i]; simpl; try discriminate.
  - reflexivity.
  - destruct b; reflexivity.
  - intros Hz. destruct (Z.eqb_spec z 0) as [-> | _]; simpl.
    + reflexivity.
    + now rewrite Hz.
  - intros _. unfold Reqb. destruct (Req_dec_T r 0) as [-> | _]; reflexivity.
Qed.

Lemma unit_lowers (v : value) :
  text_or_absent v = true ->
  py_lower (py_or v (VStr ""))
  = Ok (lower (match v with VStr s => s | _ => "" end)).
Proof.
  unfold py_or. destruct v as [| b | z | r | s | h | i]; simpl; try discriminate.
  - reflexivity.
  - intros _. destruct (String.eqb_spec s "") as [-> | _]; reflexivity.
Qed.

Lemma is_False_flag (it : doc) :
  is_False (py_get_default "available" (VBool true) it) = explicitly_unavailable it.
Proof.
  unfold py_get_default, explicitly_unavailable.
  destruct (dict_get "available" it) as [[| [|] | | | | |] |]; reflexivity.
Qed.

(** One turn of the loop on a well-formed item. *)
Lemma user_stats_step_closed (p : nat) (k : R) (it : doc) :
  well_formed_item it = true ->
  user_stats_step (p, k) it
  = Ok (if explicitly_unavailable it then S p else p,
        k + quantity_of it * factor_untrimmed it).
Proof.
  unfold well_formed_item. intros H. apply andb_prop in H as [Hq Hu].
  unfold user_stats_step.
  rewrite (unit_lowers _ Hu), is_False_flag. cbn [bind].
  rewrite (quantity_converts _ Hq).
  unfold factor_untrimmed, unit_of, quantity_of, factor_of.
  set (u := lower _). set (q := match as_real _ with Some q => q | None => 0 end).
  destruct (one_of u ["kg"; "kilo"; "kilogram"; "kilograms"]);
    [| destruct (one_of u ["g"; "gram"; "grams"]);
       [| destruct (one_of u ["lb"; "lbs"; "pound"; "pounds"])]];
    cbn [bind]; do 2 f_equal; lra.
Qed.

Lemma user_stats_loop (items : list doc) :
  Forall (fun it => well_formed_item it = true) items ->
  forall (p : nat) (k : R),
    for_each user_stats_step items (p, k)
    = Ok ((p + List.length (filter explicitly_unavailable items))%nat,
          k + sum_R (map (fun it => quantity_of it * factor_untrimmed it) items)).
Proof.
  induction 1 as [| it items Hit _ IH]; intros p k.
  - simpl. do 2 f_equal; [lia | lra].
  - cbn [for_each]. rewrite (user_stats_step_closed _ _ _ Hit). cbn [bind].
    rewrite IH. cbn [filter map sum_R fold_right].
    destruct (explicitly_unavailable it); cbn [List.length];
      do 2 f_equal; try lia; unfold sum_R; lra.
Qed.

(** On well-formed items the aggregator returns, with the statistics of
    the untrimmed unit table. *)
Lemma user_stats_closed (items : list doc) :
  Forall (fun it => well_formed_item it = true) items ->
  user_stats items = Ok (stats_with factor_untrimmed items).
Proof.
  intros H. unfold user_stats. rewrite (user_stats_loop _ H). cbn [bind].
  unfold stats_with. do 2 f_equal. f_equal. lra.
Qed.

Lemma factor_of_nonneg (u : string) : 0 <= factor_of u.
Proof.
  unfold factor_of.
  repeat match goal with |- context [if ?c then _ else _] => destruct c end; lra.
Qed.

Lemma sum_R_nonneg (l : list R) : Forall (fun x => 0 <= x) l -> 0 <= sum_R l.
Proof.
  unfold sum_R. induction 1 as [| x l Hx _ IH]; cbn [fold_right]; lra.
Qed.

End Aggregator.

Section AggregatorClaims.

Open Scope R_scope.

Lemma text_quantity_step (p : nat) (k : R) :
  user_stats_step (p, k) item_text_quantity = Raise ValueError.
Proof. reflexivity. Qed.

Lemma two_items_well_formed :
  Forall (fun it => well_formed_item it = true) [item_2kg; item_500g_claimed].
Proof. repeat constructor. Qed.

(** C1 (the code departs from the claim). The claim has a malformed
    quantity count for 0 kg and the aggregation go on. The code converts
    the quantity with a bare [float(..)]: on an item whose quantity is the
    text "abc" the conversion raises [ValueError] and the whole call raises
    it, whether the item comes first or after items already added up; the
    same well-formed item on its own is aggregated. *)
Theorem user_stats_raises_on_text_quantity :
  user_stats [item_text_quantity; item_2kg] = Raise ValueError
  /\ user_stats [item_2kg; item_text_quantity] = Raise ValueError
  /\ user_stats [item_2kg]
     = Ok {| items_shared := 1; people_helped := 0; kilograms_diverted := 2 |}.
Proof.
  split; [reflexivity | split].
  - unfold user_stats. cbn [for_each].
    rewrite user_stats_step_closed by reflexivity. cbn [bind].
    now rewrite text_quantity_step.
  - rewrite user_stats_closed by (repeat constructor).
    unfold stats_with. do 2 f_equal.
    change (round2 (2 * 1 + 0) = 2).
    replace (2 * 1 + 0) with (IZR 200 / 100) by lra.
    rewrite round2_hundredths. lra.
Qed.





(** C4, as stated, fails: quantities are not checked for their sign, and a
    quantity of -5 kg gives a total of -5. *)
Lemma user_stats_negative_total :
  user_stats [item_negative]
  = Ok {| items_shared := 1; people_helped := 0; kilograms_diverted := -5 |}
  /\ ~ (forall (items : list doc) (s : stats),
           user_stats items = Ok s -> 0 <= kilograms_diverted s).
Proof.
  assert (Hcode : user_stats [item_negative]
            = Ok {| items_shared := 1; people_helped := 0;
                    kilograms_diverted := -5 |}).
  { rewrite user_stats_closed by (repeat constructor).
    unfold stats_with. do 2 f_equal.
    change (round2 (-5 * 1 + 0) = -5).
    replace (-5 * 1 + 0) with (IZR (-500) / 100) by lra.
    rewrite round2_hundredths. lra. }
  split; [exact Hcode |].
  intros H. specialize (H _ _ Hcode). simpl in H. lra.
Qed.

(** C4, amended. For every sequence of items whose quantity is absent, null
    or a non-negative number (and whose unit is absent, null or text),
    [user_stats] returns, and its [kilograms_diverted] is at least 0. *)
Theorem user_stats_nonnegative (items : list doc) :
  Forall (fun it => well_formed_item it = true) items ->
  Forall (fun it => 0 <= quantity_of it) items ->
  exists s : stats, user_stats items = Ok s /\ 0 <= kilograms_diverted s.
Proof.
  intros Hwf Hq. exists (stats_with factor_untrimmed items).
  split; [now apply user_stats_closed |].
  unfold stats_with. cbn [kilograms_diverted].
  apply round2_nonneg, sum_R_nonneg.
  clear Hwf. induction Hq as [| it items Hit _ IH]; cbn [map]; constructor.
  - apply Rmult_le_pos; [assumption | apply factor_of_nonneg].
  - assumption.
Qed.

Lemma two_items_nonnegative :
  Forall (fun it => 0 <= quantity_of it) [item_2kg; item_500g_claimed].
Proof.
  apply Forall_cons; [| apply Forall_cons; [| apply Forall_nil]].
  - change (0 <= 2). lra.
  - change (0 <= 500). lra.
Qed.

Lemma user_stats_nonnegative_witness :
  Forall (fun it => well_formed_item it = true) [item_2kg; item_500g_claimed]
  /\ Forall (fun it => 0 <= quantity_of it) [item_2kg; item_500g_claimed]
  /\ exists s : stats,
       user_stats [item_2kg; item_500g_claimed] = Ok s /\ 0 <= kilograms_diverted s.
Proof.
  split; [exact two_items_well_formed | split; [exact two_items_nonnegative |]].
  exact (user_stats_nonnegative _ two_items_well_formed two_items_nonnegative).
Defined.

End AggregatorClaims.

(* ------------------------------------------------------------------ *)
(** ** Documents *)

Section Documents.

Lemma dict_get_set_same (k : string) (v : value) (d : doc) :
  dict_get k (dict_set k v d) = Some v.
Proof.
  induction d as [| [k' v'] d IH]; simpl.
  - now rewrite String.eqb_refl.
  - destruct (String.eqb k' k) eqn:E; simpl.
    + now rewrite String.eqb_refl.
    + now rewrite E.
Qed.

Lemma dict_get_set_other (k k' : string) (v : value) (d : doc) :
  k <> k' -> dict_get k' (dict_set k v d) = dict_get k' d.
Proof.
  intros Hne. induction d as [| [k0 v0] d IH]; simpl.
  - destruct (String.eqb_spec k k'); [contradiction | reflexivity].
  - destruct (String.eqb_spec k0 k) as [-> | Hk0]; simpl.
    + destruct (String.eqb_spec k k'); [contradiction | reflexivity].
    + destruct (String.eqb k0 k'); [reflexivity | exact IH].
Qed.

Lemma dict_get_absent (k : string) (d : doc) :
  ~ In k (map fst d) -> dict_get k d = None.
Proof.
  induction d as [| [k' v'] d IH]; [reflexivity |]. cbn [map fst In dict_get].
  intros H. destruct (String.eqb_spec k' k) as [-> | _].
  - exfalso. apply H. now left.
  - apply IH. intros Hin. apply H. now right.
Qed.

Lemma serialize_entry_other (k k0 : string) (v0 : value) (out : doc) :
  k <> "id" -> k0 <> k ->
  dict_get k (serialize_entry out (k0, v0)) = dict_get k out.
Proof.
  intros Hid Hk. unfold serialize_entry.
  destruct (String.eqb k0 "_id").
  - apply dict_get_set_other. congruence.
  - destruct v0; now apply dict_get_set_other.
Qed.

Lemma serialize_entry_same (k : string) (v : value) (out : doc) :
  k <> "_id" ->
  dict_get k (serialize_entry out (k, v)) = Some (serialize_value v).
Proof.
  intros Hk. unfold serialize_entry.
  destruct (String.eqb_spec k "_id") as [-> | _]; [contradiction |].
  destruct v; apply dict_get_set_same.
Qed.

Lemma serialize_loop_get (k : string) (d out : doc) :
  unique_keys d -> k <> "id" -> k <> "_id" ->
  dict_get k (fold_left serialize_entry d out)
  = match dict_get k d with
    | Some v => Some (serialize_value v)
    | None => dict_get k out
    end.
Proof.
  unfold unique_keys. intros Hd Hid Hk. revert out.
  induction d as [| [k0 v0] d IH]; intros out; [reflexivity |].
  cbn [map fst] in Hd. apply NoDup_cons_iff in Hd as [Hfresh Hd].
  cbn [fold_left dict_get]. rewrite (IH Hd).
  destruct (String.eqb_spec k0 k) as [-> | Hne].
  - rewrite (dict_get_absent _ _ Hfresh). now apply serialize_entry_same.
  - destruct (dict_get k d); [reflexivity |]. now apply serialize_entry_other.
Qed.

(** Apart from the identifier, [serialize_doc] keeps every field under its
    key, identifiers and dates turned into text. *)
Lemma serialize_doc_get (k : string) (d : doc) :
  unique_keys d -> k <> "id" -> k <> "_id" ->
  dict_get k (serialize_doc d) = option_map serialize_value (dict_get k d).
Proof.
  intros Hd Hid Hk. destruct d as [| kv d]; [reflexivity |].
  unfold serialize_doc. rewrite (serialize_loop_get k (kv :: d) [] Hd Hid Hk).
  now destruct (dict_get k (kv :: d)).
Qed.

End Documents.

(* ------------------------------------------------------------------ *)
(** ** Geo distance *)

Section Haversine.

Open Scope R_scope.

Lemma radians_sub (a b : R) : radians (b - a) = radians b - radians a.
Proof. unfold radians. ring. Qed.

Lemma sin_half_sqr (x : R) : sin (x / 2) ^ 2 = (1 - cos x) / 2.
Proof.
  replace (cos x) with (cos (2 * (x / 2))) by (f_equal; field).
  rewrite cos_2a_sin. field.
Qed.

Lemma sin_sqr_bound (x : R) : 0 <= sin x ^ 2 <= 1.
Proof.
  pose proof (SIN_bound x) as [Hlo Hhi]. split; nra.
Qed.

(** The haversine term lies between 0 and 1, for all coordinates. *)
Lemma haversine_term_bound (p1 p2 dl : R) :
  0 <= sin ((p2 - p1) / 2) ^ 2 + cos p1 * cos p2 * sin (dl / 2) ^ 2 <= 1.
Proof.
  rewrite sin_half_sqr, cos_minus.
  pose proof (sin_sqr_bound (dl / 2)) as [Ht0 Ht1].
  set (t := sin (dl / 2) ^ 2) in *.
  pose proof (COS_bound (p2 - p1)) as [Hm0 Hm1]. rewrite cos_minus in Hm0, Hm1.
  pose proof (COS_bound (p2 + p1)) as [Hp0 Hp1]. rewrite cos_plus in Hp0, Hp1.
  set (C2 := cos p2) in *. set (C1 := cos p1) in *.
  set (S2 := sin p2) in *. set (S1 := sin p1) in *.
  assert (Ha : 0 <= t * (1 + (C2 * C1 - S2 * S1))) by (apply Rmult_le_pos; lra).
  assert (Hb : 0 <= (1 - t) * (1 - (C2 * C1 + S2 * S1))) by (apply Rmult_le_pos; lra).
  assert (Hc : 0 <= t * (1 - (C2 * C1 - S2 * S1))) by (apply Rmult_le_pos; lra).
  assert (Hd : 0 <= (1 - t) * (1 + (C2 * C1 + S2 * S1))) by (apply Rmult_le_pos; lra).
  split; nra.
Qed.

Lemma atan_nonneg (x : R) : 0 <= x -> 0 <= atan x.
Proof.
  intros [Hx | <-].
  - left. rewrite <- atan_0. now apply atan_increasing.
  - rewrite atan_0. lra.
Qed.

Lemma atan2_nonneg (y x : R) : 0 <= y -> 0 <= x -> 0 <= atan2 y x.
Proof.
  intros Hy Hx. unfold atan2. pose proof PI_RGT_0 as Hpi.
  destruct (Rlt_dec 0 x) as [Hpos | _].
  - apply atan_nonneg. apply Rmult_le_pos; [assumption |].
    left. now apply Rinv_0_lt_compat.
  - destruct (Rlt_dec x 0) as [Hneg | _]; [lra |].
    destruct (Rlt_dec 0 y) as [_ | _]; [lra |].
    destruct (Rlt_dec y 0) as [Hy' | _]; lra.
Qed.

Lemma atan2_0_pos (x : R) : 0 < x -> atan2 0 x = 0.
Proof.
  intros Hx. unfold atan2. destruct (Rlt_dec 0 x) as [_ | H]; [| contradiction].
  unfold Rdiv. now rewrite Rmult_0_l, atan_0.
Qed.

Lemma haversine_a_bound (lat1 lon1 lat2 lon2 : R) :
  0 <= haversine_a lat1 lon1 lat2 lon2 <= 1.
Proof.
  unfold haversine_a. rewrite radians_sub. apply haversine_term_bound.
Qed.

Lemma haversine_a_sym (lat1 lon1 lat2 lon2 : R) :
  haversine_a lat1 lon1 lat2 lon2 = haversine_a lat2 lon2 lat1 lon1.
Proof.
  unfold haversine_a.
  replace (radians (lat1 - lat2) / 2) with (- (radians (lat2 - lat1) / 2))
    by (unfold radians; field).
  replace (radians (lon1 - lon2) / 2) with (- (radians (lon2 - lon1) / 2))
    by (unfold radians; field).
  rewrite !sin_neg. ring.
Qed.

(** In exact arithmetic the distance is always computed: neither square
    root sees a negative number. *)
Lemma haversine_value (lat1 lon1 lat2 lon2 : R) :
  _haversine_km lat1 lon1 lat2 lon2
  = Ok (6371.0 * (2 * atan2 (sqrt (haversine_a lat1 lon1 lat2 lon2))
                            (sqrt (1 - haversine_a lat1 lon1 lat2 lon2)))).
Proof.
  unfold _haversine_km. fold (haversine_a lat1 lon1 lat2 lon2).
  pose proof (haversine_a_bound lat1 lon1 lat2 lon2) as [H0 H1].
  unfold py_sqrt.
  destruct (Rlt_dec (haversine_a lat1 lon1 lat2 lon2) 0) as [H | _]; [lra |].
  cbn [bind].
  destruct (Rlt_dec (1 - haversine_a lat1 lon1 lat2 lon2) 0) as [H | _]; [lra |].
  reflexivity.
Qed.

Lemma haversine_total (lat1 lon1 lat2 lon2 : R) :
  exists r : R, _haversine_km lat1 lon1 lat2 lon2 = Ok r /\ 0 <= r.
Proof.
  rewrite haversine_value. eexists. split; [reflexivity |].
  assert (H : 0 <= atan2 (sqrt (haversine_a lat1 lon1 lat2 lon2))
                         (sqrt (1 - haversine_a lat1 lon1 lat2 lon2)))
    by (apply atan2_nonneg; apply sqrt_pos).
  lra.
Qed.

Lemma haversine_symmetric (lat1 lon1 lat2 lon2 : R) :
  _haversine_km lat1 lon1 lat2 lon2 = _haversine_km lat2 lon2 lat1 lon1.
Proof.
  rewrite !haversine_value. now rewrite (haversine_a_sym lat1 lon1 lat2 lon2).
Qed.

Lemma haversine_self (lat lon : R) : _haversine_km lat lon lat lon = Ok 0.
Proof.
  rewrite haversine_value.
  assert (Ha : haversine_a lat lon lat lon = 0).
  { unfold haversine_a, radians.
    replace ((lat - lat) * (PI / 180) / 2) with 0 by field.
    replace ((lon - lon) * (PI / 180) / 2) with 0 by field.
    rewrite sin_0. ring. }
  rewrite Ha, Rminus_0_r, sqrt_0, sqrt_1, atan2_0_pos by lra.
  f_equal. ring.
Qed.

End Haversine.

(* ------------------------------------------------------------------ *)
(** ** Stable sorting *)

Section Sorting.

Open Scope R_scope.

Context {A : Type} (key : A -> R).

Let key_le (a b : A) : Prop := key a <= key b.
Let has_key (k : R) (a : A) : bool := Reqb (key a) k.

Lemma insert_by_perm (x : A) (l : list A) :
  Permutation (insert_by key x l) (x :: l).
Proof.
  induction l as [| y l IH]; cbn [insert_by]; [reflexivity |].
  destruct (Rltb (key y) (key x)); [| reflexivity].
  rewrite IH. apply perm_swap.
Qed.

Lemma sort_by_perm (l : list A) : Permutation (sort_by key l) l.
Proof.
  induction l as [| x l IH]; cbn [sort_by]; [reflexivity |].
  rewrite insert_by_perm. now constructor.
Qed.

Lemma insert_by_sorted (x : A) (l : list A) :
  StronglySorted key_le l -> StronglySorted key_le (insert_by key x l).
Proof.
  induction 1 as [| y l Hl IH Hy]; cbn [insert_by].
  - repeat constructor.
  - unfold Rltb. destruct (Rlt_dec (key y) (key x)) as [Hlt | Hge].
    + constructor; [exact IH |].
      apply (Permutation_Forall (Permutation_sym (insert_by_perm x l))).
      constructor; [unfold key_le; lra | exact Hy].
    + constructor; [now constructor |].
      constructor; [unfold key_le; lra |].
      eapply Forall_impl; [| exact Hy]. unfold key_le. intros z Hz. lra.
Qed.

Lemma sort_by_sorted (l : list A) : StronglySorted key_le (sort_by key l).
Proof.
  induction l as [| x l IH]; cbn [sort_by]; [constructor |].
  now apply insert_by_sorted.
Qed.

(** An element is moved past smaller keys only, so the elements of one key
    keep their order. *)
Lemma insert_by_stable (k : R) (x : A) (l : list A) :
  filter (has_key k) (insert_by key x l) = filter (has_key k) (x :: l).
Proof.
  induction l as [| y l IH]; cbn [insert_by]; [reflexivity |].
  unfold Rltb. destruct (Rlt_dec (key y) (key x)) as [Hlt | _]; [| reflexivity].
  cbn [filter] in *. rewrite IH. unfold has_key, Reqb.
  destruct (Req_dec_T (key y) k) as [Hy | _];
    destruct (Req_dec_T (key x) k) as [Hx | _]; try reflexivity.
  lra.
Qed.

Lemma sort_by_stable (k : R) (l : list A) :
  filter (has_key k) (sort_by key l) = filter (has_key k) l.
Proof.
  induction l as [| x l IH]; cbn [sort_by]; [reflexivity |].
  rewrite insert_by_stable. cbn [filter]. now rewrite IH.
Qed.

(** A list already in order is left as it is. *)
Lemma sort_by_sorted_id (l : list A) :
  StronglySorted key_le l -> sort_by key l = l.
Proof.
  induction 1 as [| x l Hl IH Hx]; cbn [sort_by]; [reflexivity |].
  rewrite IH. destruct l as [| y l']; [reflexivity |].
  cbn [insert_by]. unfold Rltb.
  destruct (Rlt_dec (key y) (key x)) as [Hlt | _]; [| reflexivity].
  apply Forall_inv in Hx. unfold key_le in Hx. lra.
Qed.

End Sorting.

Section PythonSort.

Open Scope R_scope.

Variable key : doc -> value.
Variable rkey : doc -> R.

Let numeric (x : doc) : Prop := as_real (key x) = Some (rkey x).
Let keyed (x : doc) : value * doc := (key x, x).

Lemma insert_by_key_numeric (x : doc) (l : list doc) :
  numeric x -> Forall numeric l ->
  insert_by_key (keyed x) (map keyed l) = Ok (map keyed (insert_by rkey x l)).
Proof.
  intros Hx. induction 1 as [| y l Hy Hl IH]; [reflexivity |].
  cbn [map insert_by_key insert_by fst keyed].
  unfold py_lt. unfold numeric in Hx, Hy. rewrite Hy, Hx. cbn [bind].
  destruct (Rltb (rkey y) (rkey x)); [| reflexivity].
  fold (keyed x). rewrite IH. reflexivity.
Qed.

Lemma sort_keyed_numeric (l : list doc) :
  Forall numeric l ->
  sort_keyed (map keyed l) = Ok (map keyed (sort_by rkey l)).
Proof.
  induction 1 as [| x l Hx Hl IH]; [reflexivity |].
  cbn [map sort_keyed sort_by]. rewrite IH. cbn [bind].
  apply insert_by_key_numeric; [exact Hx |].
  apply (Permutation_Forall (Permutation_sym (sort_by_perm rkey l))). exact Hl.
Qed.

(** On numeric keys [py_sort] returns, with the stable sort of its input. *)
Lemma py_sort_numeric (l : list doc) :
  Forall numeric l -> py_sort key l = Ok (sort_by rkey l).
Proof.
  intros H. unfold py_sort. fold keyed. rewrite (sort_keyed_numeric _ H).
  cbn [bind]. rewrite map_map. cbn [keyed snd]. now rewrite map_id.
Qed.

End PythonSort.

(* ------------------------------------------------------------------ *)
(** ** Proximity search *)

Section Search.

Open Scope R_scope.

Variables lat lng radius_km : R.

(** The assigned distance is a float that is not negative, or the integer
    9999. *)
Lemma item_dist_shape (d_ser : doc) :
  (exists r : R, item_dist lat lng d_ser = VFloat r /\ 0 <= r)
  \/ item_dist lat lng d_ser = VInt 9999.
Proof.
  unfold item_dist.
  destruct (py_float (py_get "location_lat" d_ser)) as [lat2 | e]; [| now right].
  destruct (py_float (py_get "location_lng" d_ser)) as [lng2 | e]; [| now right].
  cbn [bind]. destruct (haversine_total lat lng lat2 lng2) as [r [Hr Hpos]].
  rewrite Hr. left. now exists r.
Qed.

Lemma distance_nonneg (d : doc) : 0 <= distance lat lng d.
Proof.
  unfold distance, assigned_dist.
  destruct (item_dist_shape (serialize_doc d)) as [[r [-> Hr]] | ->]; lra.
Qed.

Lemma assigned_dist_unparsed (d : doc) :
  location_parses d = false -> assigned_dist lat lng d = VInt 9999.
Proof.
  unfold location_parses, assigned_dist, item_dist.
  destruct (py_float (py_get "location_lat" (serialize_doc d))); [| reflexivity].
  destruct (py_float (py_get "location_lng" (serialize_doc d)));
    [discriminate | reflexivity].
Qed.

Lemma assigned_dist_parsed (d : doc) (lat2 lng2 : R) :
  py_float (py_get "location_lat" (serialize_doc d)) = Ok lat2 ->
  py_float (py_get "location_lng" (serialize_doc d)) = Ok lng2 ->
  exists r : R,
    _haversine_km lat lng lat2 lng2 = Ok r
    /\ assigned_dist lat lng d = VFloat r /\ distance lat lng d = r.
Proof.
  intros Hlat Hlng. destruct (haversine_total lat lng lat2 lng2) as [r [Hr _]].
  exists r. unfold distance, assigned_dist, item_dist.
  rewrite Hlat, Hlng. cbn [bind]. now rewrite Hr.
Qed.

Lemma annotate_distance_km (d : doc) :
  py_get_default "distance_km" (VInt 9999) (annotate lat lng d)
  = rounded (assigned_dist lat lng d).
Proof.
  unfold py_get_default, annotate. now rewrite dict_get_set_same.
Qed.

Lemma annotate_numeric (d : doc) :
  as_real (py_get_default "distance_km" (VInt 9999) (annotate lat lng d))
  = Some (distance_km (annotate lat lng d)).
Proof.
  unfold distance_km. rewrite annotate_distance_km. unfold assigned_dist.
  destruct (item_dist_shape (serialize_doc d)) as [[r [-> _]] | ->]; reflexivity.
Qed.

(** The [distance_km] of a returned document: the distance rounded to two
    decimals, or 9999. *)
Lemma annotate_rounds (d : doc) :
  distance_km (annotate lat lng d)
  = match assigned_dist lat lng d with
    | VFloat r => round2 r
    | _ => 9999
    end.
Proof.
  unfold distance_km. rewrite annotate_distance_km. unfold assigned_dist.
  destruct (item_dist_shape (serialize_doc d)) as [[r [-> _]] | ->]; reflexivity.
Qed.

Lemma distance_km_keeps_flag (v : value) (d_ser : doc) :
  py_get_default "available" (VBool true) (dict_set "distance_km" v d_ser)
  = py_get_default "available" (VBool true) d_ser.
Proof.
  unfold py_get_default. now rewrite dict_get_set_other by discriminate.
Qed.

(** One turn of the loop: the document is appended, annotated, when it is
    retained. *)
Lemma list_items_step_closed (enriched : list doc) (d : doc) :
  list_items_step lat lng radius_km enriched d
  = Ok (enriched ++ (if retained lat lng radius_km d
                     then [annotate lat lng d] else [])).
Proof.
  unfold list_items_step, retained, available, distance, annotate, assigned_dist.
  destruct (item_dist_shape (serialize_doc d)) as [[r [-> _]] | ->];
    cbn [py_round2 py_le as_real bind rounded];
    rewrite distance_km_keeps_flag;
    match goal with
    | |- (if ?c then _ else _) = _ => destruct c
    end; now rewrite ?app_nil_r.
Qed.

Lemma list_items_loop (docs enriched : list doc) :
  for_each (list_items_step lat lng radius_km) docs enriched
  = Ok (enriched
        ++ map (annotate lat lng) (filter (retained lat lng radius_km) docs)).
Proof.
  revert enriched. induction docs as [| d docs IH]; intros enriched.
  - cbn. now rewrite app_nil_r.
  - cbn [for_each filter]. rewrite list_items_step_closed. cbn [bind].
    rewrite IH, <- app_assoc.
    now destruct (retained lat lng radius_km d).
Qed.

(** The search returns, with the retained documents, annotated, in the
    stable order of their [distance_km]. *)
Lemma list_items_closed (docs : list doc) :
  list_items lat lng radius_km docs
  = Ok (sort_by distance_km
          (map (annotate lat lng) (filter (retained lat lng radius_km) docs))).
Proof.
  unfold list_items. rewrite list_items_loop. cbn [bind app].
  apply py_sort_numeric. apply Forall_forall. intros x Hx.
  apply in_map_iff in Hx as [d [<- _]]. apply annotate_numeric.
Qed.

End Search.

Section SearchClaims.

Open Scope R_scope.

Lemma retained_iff (lat lng radius_km : R) (d : doc) :
  retained lat lng radius_km d = true
  <-> distance lat lng d <= radius_km /\ available d = true.
Proof.
  unfold retained, Rleb. rewrite andb_true_iff.
  destruct (Rle_dec (distance lat lng d) radius_km); intuition discriminate.
Qed.

(** The flag the search reads is the flag of the stored document; a
    document without one counts as available. *)
Lemma available_of_flag (d : doc) :
  unique_keys d ->
  available d = match dict_get "available" d with
                | Some flag => truthy (serialize_value flag)
                | None => true
                end.
Proof.
  intros Hd. unfold available, py_get_default.
  rewrite (serialize_doc_get "available" d Hd) by discriminate.
  now destruct (dict_get "available" d).
Qed.

Lemma origin_item_at_zero :
  available item_at_origin = true /\ distance 0 0 item_at_origin = 0.
Proof.
  split; [reflexivity |].
  destruct (assigned_dist_parsed 0 0 item_at_origin 0 0 eq_refl eq_refl)
    as [r [Hr [_ ->]]].
  rewrite haversine_self in Hr. now injection Hr as <-.
Qed.

(** C3, as stated, fails: with a negative radius an available item at the
    very centre, at distance exactly 0, is not returned. *)
Lemma negative_radius_drops_centre_item :
  -1 <= 0
  /\ available item_at_origin = true
  /\ distance 0 0 item_at_origin = 0
  /\ list_items 0 0 (-1) [item_at_origin] = Ok [].
Proof.
  destruct origin_item_at_zero as [Hav Hd].
  split; [lra | split; [exact Hav | split; [exact Hd |]]].
  rewrite list_items_closed. cbn [filter].
  unfold retained, Rleb. rewrite Hd.
  destruct (Rle_dec 0 (-1)) as [H | _]; [lra | reflexivity].
Qed.

Lemma zero_keys_sorted (l : list doc) :
  Forall (fun x => distance_km x = 0) l ->
  StronglySorted (fun x y => distance_km x <= distance_km y) l.
Proof.
  induction 1 as [| x l Hx Hl IH]; constructor; [exact IH |].
  eapply Forall_impl; [| exact Hl]. cbn. intros y Hy. lra.
Qed.

Lemma annotate_at_zero (lat lng : R) (d : doc) :
  distance lat lng d = 0 -> distance_km (annotate lat lng d) = 0.
Proof.
  unfold distance. rewrite annotate_rounds.
  destruct (assigned_dist lat lng d); try lra.
  intros ->. replace 0 with (IZR 0 / 100) by lra. apply round2_hundredths.
Qed.

(** C3, amended. For every centre and candidate list, if [radius_km] <= 0
    then every returned item is an available item at distance exactly 0
    from the centre, so the result is empty unless there is one; with
    [radius_km] = 0 the available items at distance exactly 0 are returned,
    all of them, in input order and with [distance_km] 0; with
    [radius_km] < 0 the result is empty. *)
Theorem list_items_nonpositive_radius (lat lng radius_km : R) (docs : list doc) :
  radius_km <= 0 ->
  exists out : list doc,
    list_items lat lng radius_km docs = Ok out
    /\ Forall (fun x => exists d : doc,
                   In d docs /\ x = annotate lat lng d
                   /\ available d = true /\ distance lat lng d = 0
                   /\ distance_km x = 0) out
    /\ (radius_km < 0 -> out = [])
    /\ (radius_km = 0 ->
        out = map (annotate lat lng)
                (filter (fun d => Reqb (distance lat lng d) 0 && available d) docs)).
Proof.
  intros Hrad. eexists. split; [apply list_items_closed |].
  assert (Hret : forall d, retained lat lng radius_km d = true ->
                           available d = true /\ distance lat lng d = 0
                           /\ radius_km = 0).
  { intros d H. apply retained_iff in H as [Hle Hav].
    pose proof (distance_nonneg lat lng d). repeat split; [exact Hav | lra | lra]. }
  assert (Hall : Forall (fun x => exists d : doc,
                   In d docs /\ x = annotate lat lng d
                   /\ available d = true /\ distance lat lng d = 0
                   /\ distance_km x = 0)
            (map (annotate lat lng) (filter (retained lat lng radius_km) docs))).
  { apply Forall_forall. intros x Hx. apply in_map_iff in Hx as [d [<- Hd]].
    apply filter_In in Hd as [Hin Hd]. apply Hret in Hd as [Hav [Hz _]].
    exists d. repeat split; try assumption. now apply annotate_at_zero. }
  split; [| split].
  - apply (Permutation_Forall (Permutation_sym (sort_by_perm distance_km _))).
    exact Hall.
  - intros Hneg. replace (filter (retained lat lng radius_km) docs) with (@nil doc);
      [reflexivity |].
    symmetry. clear Hall. induction docs as [| d docs' IH]; [reflexivity |].
    cbn [filter]. destruct (retained lat lng radius_km d) eqn:E.
    + apply Hret in E. lra.
    + exact IH.
  - intros Hzero. rewrite sort_by_sorted_id.
    + f_equal. apply filter_ext. intros d. unfold retained, Rleb, Reqb.
      pose proof (distance_nonneg lat lng d).
      destruct (Rle_dec (distance lat lng d) radius_km);
        destruct (Req_dec_T (distance lat lng d) 0); try reflexivity; lra.
    + apply zero_keys_sorted. eapply Forall_impl; [| exact Hall].
      cbn. intros x [d [_ [_ [_ [_ H]]]]]. exact H.
Qed.

Lemma list_items_nonpositive_radius_witness :
  0 <= 0
  /\ exists out : list doc,
       list_items 0 0 0 [item_at_origin; item_no_location] = Ok out
       /\ out = map (annotate 0 0)
                  (filter (fun d => Reqb (distance 0 0 d) 0 && available d)
                     [item_at_origin; item_no_location]).
Proof.
  assert (H : 0 <= 0) by lra.
  split; [exact H |].
  destruct (list_items_nonpositive_radius 0 0 0 [item_at_origin; item_no_location] H)
    as [out [Hout [_ [_ Hzero]]]].
  exists out. split; [exact Hout | now apply Hzero].
Defined.

End SearchClaims.

Section SentinelClaim.

Open Scope R_scope.

Lemma sentinel_only_unparsed (lat lng : R) (d d' : doc) :
  assigned_dist lat lng d = VInt 9999 ->
  annotate lat lng d' = annotate lat lng d ->
  distance lat lng d' = 9999.
Proof.
  intros Hd Heq.
  assert (Hk : rounded (assigned_dist lat lng d') = rounded (assigned_dist lat lng d))
    by (rewrite <- !annotate_distance_km; now rewrite Heq).
  rewrite Hd in Hk. unfold distance. unfold assigned_dist in *.
  destruct (item_dist_shape lat lng (serialize_doc d')) as [[r [Hr _]] | ->];
    [| reflexivity].
  rewrite Hr in Hk. discriminate Hk.
Qed.

Lemma conversion_error_raises (v : value) (e : exn) :
  conversion_error v = Some e -> py_float v = Raise e.
Proof.
  destruct v as [| b | z | r | s | h | i]; cbn [conversion_error py_float];
    try discriminate; try (intros H; injection H as <-; reflexivity).
  - destruct (Z.abs z <? 2 ^ 1024 - 2 ^ 970)%Z; [discriminate |].
    intros H. now injection H as <-.
  - destruct (is_ascii s && negb (nonfinite_literal s)); [| discriminate].
    destruct (float_of_string s) as [x | e']; [discriminate |].
    intros H. now injection H as <-.
Qed.

Lemma unconvertible_not_parsed (d : doc) :
  location_unconvertible d = true -> location_parses d = false.
Proof.
  unfold location_unconvertible, location_parses.
  destruct (conversion_error (py_get "location_lat" (serialize_doc d))) as [e |] eqn:Elat.
  - intros _. now rewrite (conversion_error_raises _ _ Elat).
  - destruct (conversion_error (py_get "location_lng" (serialize_doc d))) as [e |] eqn:Elng;
      [| discriminate].
    intros _. rewrite (conversion_error_raises _ _ Elng).
    now destruct (py_float (py_get "location_lat" (serialize_doc d))).
Qed.

(** C5. The search returns for every candidate list, whatever the location
    fields hold. An item on whose latitude or longitude [float(..)] raises
    (a missing or null field, a text that spells no float; a text such as
    "nan", which [float(..)] does convert, is not one of these)
    is assigned the distance 9999 and carries [distance_km] = 9999;
    it is retained exactly when [radius_km] >= 9999 and it is available.
    Below that radius the result is the result of the search without the
    item; from that radius on, an available such item is in the result,
    next to the result for the others. *)
Theorem list_items_sentinel_distance
    (lat lng radius_km : R) (before after : list doc) (d : doc) :
  location_unconvertible d = true ->
  assigned_dist lat lng d = VInt 9999
  /\ py_get "distance_km" (annotate lat lng d) = VInt 9999
  /\ distance_km (annotate lat lng d) = 9999
  /\ (retained lat lng radius_km d = true
      <-> 9999 <= radius_km /\ available d = true)
  /\ exists out rest : list doc,
       list_items lat lng radius_km (before ++ d :: after) = Ok out
       /\ list_items lat lng radius_km (before ++ after) = Ok rest
       /\ (radius_km < 9999 -> out = rest /\ ~ In (annotate lat lng d) out)
       /\ (9999 <= radius_km -> available d = true ->
           In (annotate lat lng d) out
           /\ Permutation out (annotate lat lng d :: rest)).
Proof.
  intros Hconv. pose proof (unconvertible_not_parsed d Hconv) as Hloc.
  pose proof (assigned_dist_unparsed lat lng d Hloc) as Hd.
  assert (Hdist : distance lat lng d = 9999) by (unfold distance; now rewrite Hd).
  assert (Hkey : py_get_default "distance_km" (VInt 9999) (annotate lat lng d)
                 = VInt 9999) by (now rewrite annotate_distance_km, Hd).
  assert (Hret : retained lat lng radius_km d = true
                 <-> 9999 <= radius_km /\ available d = true)
    by (rewrite retained_iff, Hdist; reflexivity).
  split; [exact Hd |].
  split; [unfold py_get, annotate, py_get_default; now rewrite dict_get_set_same, Hd |].
  split; [unfold distance_km; now rewrite Hkey |].
  split; [exact Hret |].
  do 2 eexists.
  split; [apply list_items_closed |]. split; [apply list_items_closed |].
  rewrite !filter_app. cbn [filter]. split.
  - intros Hlt.
    assert (E : retained lat lng radius_km d = false)
      by (apply not_true_is_false; intros E; apply Hret in E; lra).
    rewrite E. split; [reflexivity |]. intros Hin.
    apply (Permutation_in _ (sort_by_perm distance_km _)) in Hin.
    apply in_map_iff in Hin as [d' [Heq Hd']].
    rewrite <- filter_app in Hd'. apply filter_In in Hd' as [_ Hd'].
    apply retained_iff in Hd' as [Hle _].
    rewrite (sentinel_only_unparsed lat lng d d' Hd Heq) in Hle. lra.
  - intros Hge Hav. assert (E : retained lat lng radius_km d = true) by now apply Hret.
    rewrite E.
    assert (Hperm : Permutation
              (sort_by distance_km
                 (map (annotate lat lng)
                    (filter (retained lat lng radius_km) before
                     ++ d :: filter (retained lat lng radius_km) after)))
              (annotate lat lng d
               :: sort_by distance_km
                    (map (annotate lat lng)
                       (filter (retained lat lng radius_km) before
                        ++ filter (retained lat lng radius_km) after)))).
    { rewrite !sort_by_perm, !map_app. cbn [map].
      symmetry. apply Permutation_middle. }
    split; [| exact Hperm].
    apply (Permutation_in _ (Permutation_sym Hperm)). now left.
Qed.

Lemma list_items_sentinel_distance_witness :
  location_unconvertible item_no_location = true
  /\ assigned_dist 0 0 item_no_location = VInt 9999
  /\ exists out rest : list doc,
       list_items 0 0 2 ([item_at_origin] ++ item_no_location :: []) = Ok out
       /\ list_items 0 0 2 ([item_at_origin] ++ []) = Ok rest
       /\ out = rest.
Proof.
  assert (Hloc : location_unconvertible item_no_location = true) by reflexivity.
  assert (Hrad : 2 < 9999) by lra.
  split; [exact Hloc |].
  destruct (list_items_sentinel_distance 0 0 2 [item_at_origin] [] item_no_location Hloc)
    as [Hd [_ [_ [_ [out [rest [Hout [Hrest [Hlt _]]]]]]]]].
  split; [exact Hd |].
  exists out, rest. split; [exact Hout | split; [exact Hrest |]].
  exact (proj1 (Hlt Hrad)).
Defined.

End SentinelClaim.

(* ================================================================== *)
(** * Further properties of the code *)

(* ------------------------------------------------------------------ *)
(** ** [serialize_doc] *)

Section Serialization.

Lemma dict_set_keys (k k' : string) (v : value) (d : doc) :
  In k' (map fst (dict_set k v d)) <-> k' = k \/ In k' (map fst d).
Proof.
  induction d as [| [k0 v0] d IH]; cbn [dict_set map fst In].
  - intuition congruence.
  - destruct (String.eqb_spec k0 k) as [-> | Hne]; cbn [map fst In].
    + intuition congruence.
    + rewrite IH. intuition congruence.
Qed.

Lemma dict_set_NoDup (k : string) (v : value) (d : doc) :
  NoDup (map fst d) -> NoDup (map fst (dict_set k v d)).
Proof.
  induction d as [| [k0 v0] d IH]; cbn [dict_set map fst]; intros Hd.
  - repeat constructor. intros [].
  - apply NoDup_cons_iff in Hd as [Hfresh Hd].
    destruct (String.eqb_spec k0 k) as [-> | Hne]; cbn [map fst].
    + now constructor.
    + constructor; [| now apply IH].
      rewrite dict_set_keys. intros [-> | Hin]; [now apply Hne | now apply Hfresh].
Qed.

Lemma dict_set_Forall (P : string * value -> Prop) (k : string) (v : value) (d : doc) :
  Forall P d -> P (k, v) -> Forall P (dict_set k v d).
Proof.
  intros Hd Hkv. induction Hd as [| [k0 v0] d H0 Hd IH]; cbn [dict_set].
  - now repeat constructor.
  - destruct (String.eqb k0 k); now constructor.
Qed.

Lemma dict_set_fresh (k : string) (v : value) (d : doc) :
  ~ In k (map fst d) -> dict_set k v d = d ++ [(k, v)].
Proof.
  induction d as [| [k0 v0] d IH]; cbn [dict_set map fst In app]; intros H.
  - reflexivity.
  - destruct (String.eqb_spec k0 k) as [-> | _].
    + exfalso. apply H. now left.
    + f_equal. apply IH. intros Hin. apply H. now right.
Qed.

Lemma serialize_entry_ready (out : doc) (kv : string * value) :
  json_ready out -> json_ready (serialize_entry out kv).
Proof.
  intros [Hnd [Hid [Hobj Hdt]]]. destruct kv as [k v]. unfold serialize_entry.
  destruct (String.eqb_spec k "_id") as [-> | Hk].
  - repeat split.
    + now apply dict_set_NoDup.
    + rewrite dict_set_keys. intros [H | H]; [discriminate H | now apply Hid].
    + apply dict_set_Forall; [exact Hobj | now destruct v].
    + apply dict_set_Forall; [exact Hdt | reflexivity].
  - assert (Hkey : forall w, ~ In "_id" (map fst (dict_set k w out))).
    { intros w. rewrite dict_set_keys. intros [H | H]; [now apply Hk | now apply Hid]. }
    destruct v; (repeat split;
      [ now apply dict_set_NoDup
      | apply Hkey
      | apply dict_set_Forall; [exact Hobj | reflexivity]
      | apply dict_set_Forall; [exact Hdt | cbn; intros H; discriminate H] ]).
Qed.

Lemma serialize_loop_ready (d out : doc) :
  json_ready out -> json_ready (fold_left serialize_entry d out).
Proof.
  revert out. induction d as [| kv d IH]; intros out Hout; [exact Hout |].
  cbn [fold_left]. apply IH. now apply serialize_entry_ready.
Qed.

Lemma empty_ready : json_ready [].
Proof. repeat split; try constructor. intros []. Qed.

Lemma serialize_doc_ready (d : doc) : json_ready (serialize_doc d).
Proof.
  destruct d as [| kv d]; [exact empty_ready |].
  unfold serialize_doc. apply serialize_loop_ready. exact empty_ready.
Qed.

(** X1. Whatever the stored document holds, the serialized one has each
    key once, has no [_id] key and no [ObjectId] value, and holds a
    [datetime] at most under [id] (an [_id] that is a [datetime] is copied
    as it is); [get_messages] returns one such document per stored
    message. *)
Theorem serialize_doc_json_ready :
  (forall d : doc, json_ready (serialize_doc d))
  /\ (forall docs : list doc,
         List.length (get_messages docs) = List.length docs
         /\ Forall json_ready (get_messages docs))
  /\ dict_get "id" (serialize_doc [("_id", VDatetime "2024-01-01T00:00:00")])
     = Some (VDatetime "2024-01-01T00:00:00").
Proof.
  split; [exact serialize_doc_ready | split; [| reflexivity]].
  intros docs. unfold get_messages. split; [apply length_map |].
  apply Forall_forall. intros x Hx. apply in_map_iff in Hx as [d [<- _]].
  apply serialize_doc_ready.
Qed.

(** X2. In a document that holds each key once, every field other than
    [_id] and [id] is found under its own key after serialization, an
    [ObjectId] or a [datetime] turned into its text and any other value
    unchanged; a key the document lacks is still lacking. *)
Theorem serialize_doc_keeps_fields (k : string) (d : doc) :
  unique_keys d -> k <> "id" -> k <> "_id" ->
  dict_get k (serialize_doc d) = option_map serialize_value (dict_get k d).
Proof. exact (serialize_doc_get k d). Qed.

Lemma serialize_doc_keeps_fields_witness :
  unique_keys item_at_origin
  /\ dict_get "location_lat" (serialize_doc item_at_origin) = Some (VFloat 0)
  /\ dict_get "photo_url" (serialize_doc item_at_origin) = None.
Proof.
  assert (Hu : unique_keys item_at_origin).
  { unfold unique_keys, item_at_origin. cbn [map fst].
    repeat (constructor; [cbn [In]; intuition discriminate |]). constructor. }
  assert (H1 : "location_lat" <> "id") by discriminate.
  assert (H2 : "location_lat" <> "_id") by discriminate.
  assert (H3 : "photo_url" <> "id") by discriminate.
  assert (H4 : "photo_url" <> "_id") by discriminate.
  split; [exact Hu | split].
  - exact (serialize_doc_keeps_fields "location_lat" item_at_origin Hu H1 H2).
  - exact (serialize_doc_keeps_fields "photo_url" item_at_origin Hu H3 H4).
Defined.

Lemma serialize_loop_id (d out : doc) :
  unique_keys d -> ~ In "id" (map fst d) ->
  dict_get "id" (fold_left serialize_entry d out)
  = match dict_get "_id" d with
    | Some v => Some (serialize_id v)
    | None => dict_get "id" out
    end.
Proof.
  unfold unique_keys. intros Hd Hid. revert out.
  induction d as [| [k0 v0] d IH]; intros out; [reflexivity |].
  cbn [map fst In] in Hd, Hid. apply NoDup_cons_iff in Hd as [Hfresh Hd].
  assert (Hid' : ~ In "id" (map fst d)) by (intros H; apply Hid; now right).
  cbn [fold_left dict_get]. rewrite (IH Hd Hid').
  destruct (String.eqb_spec k0 "_id") as [-> | Hne].
  - rewrite (dict_get_absent _ _ Hfresh). unfold serialize_entry.
    cbn [String.eqb Ascii.eqb Bool.eqb]. apply dict_get_set_same.
  - destruct (dict_get "_id" d); [reflexivity |].
    unfold serialize_entry. destruct (String.eqb_spec k0 "_id"); [contradiction |].
    assert (Hk0 : k0 <> "id") by (intros ->; apply Hid; now left).
    destruct v0; now apply dict_get_set_other.
Qed.

(** X3. In a document that holds each key once and has no [id] field of
    its own, serialization moves the identifier from [_id] to [id], an
    [ObjectId] as its text and any other value unchanged; without an [_id]
    the result has no [id]. *)
Theorem serialize_doc_renames_id (d : doc) :
  unique_keys d -> ~ In "id" (map fst d) ->
  dict_get "id" (serialize_doc d) = option_map serialize_id (dict_get "_id" d)
  /\ dict_get "_id" (serialize_doc d) = None.
Proof.
  intros Hd Hid. split.
  - destruct d as [| kv d]; [reflexivity |].
    unfold serialize_doc. rewrite (serialize_loop_id (kv :: d) [] Hd Hid).
    now destruct (dict_get "_id" (kv :: d)).
  - apply dict_get_absent. now destruct (serialize_doc_ready d) as [_ [H _]].
Qed.

Lemma serialize_doc_renames_id_witness :
  unique_keys item_at_origin /\ ~ In "id" (map fst item_at_origin)
  /\ dict_get "id" (serialize_doc item_at_origin)
     = Some (VStr "65f1c0ffee0123456789abcd")
  /\ dict_get "_id" (serialize_doc item_at_origin) = None.
Proof.
  assert (Hu : unique_keys item_at_origin).
  { unfold unique_keys, item_at_origin. cbn [map fst].
    repeat (constructor; [cbn [In]; intuition discriminate |]). constructor. }
  assert (Hid : ~ In "id" (map fst item_at_origin))
    by (cbn [item_at_origin map fst In]; intuition discriminate).
  split; [exact Hu | split; [exact Hid |]].
  exact (serialize_doc_renames_id item_at_origin Hu Hid).
Defined.

End Serialization.

Section SerializationFixpoint.

Lemma serialize_entry_plain (out : doc) (kv : string * value) :
  (fst kv = "_id" -> is_datetime (snd kv) = false) ->
  plain_doc out -> plain_doc (serialize_entry out kv).
Proof.
  intros Hkv [Hnd [Hid Hval]]. destruct kv as [k v]. cbn [fst snd] in Hkv.
  unfold serialize_entry. destruct (String.eqb_spec k "_id") as [-> | Hk].
  - repeat split.
    + now apply dict_set_NoDup.
    + rewrite dict_set_keys. intros [H | H]; [discriminate H | now apply Hid].
    + apply dict_set_Forall; [exact Hval |]. specialize (Hkv eq_refl).
      destruct v; cbn in *; auto.
  - assert (Hkey : forall w, ~ In "_id" (map fst (dict_set k w out))).
    { intros w. rewrite dict_set_keys. intros [H | H]; [now apply Hk | now apply Hid]. }
    destruct v; (repeat split;
      [ now apply dict_set_NoDup
      | apply Hkey
      | apply dict_set_Forall; [exact Hval | now split] ]).
Qed.

Lemma serialize_loop_plain (d out : doc) :
  no_datetime_id d -> plain_doc out -> plain_doc (fold_left serialize_entry d out).
Proof.
  unfold no_datetime_id. intros Hd. revert out.
  induction Hd as [| kv d Hkv Hd IH]; intros out Hout; [exact Hout |].
  cbn [fold_left]. apply IH. now apply serialize_entry_plain.
Qed.

Lemma serialize_doc_plain (d : doc) : no_datetime_id d -> plain_doc (serialize_doc d).
Proof.
  intros Hd. assert (Hnil : plain_doc []).
  { repeat split; try constructor. intros []. }
  destruct d as [| kv d]; [exact Hnil |].
  unfold serialize_doc. now apply serialize_loop_plain.
Qed.

(** Serializing plain fields under fresh keys appends them as they are. *)
Lemma serialize_loop_appends (d out : doc) :
  NoDup (map fst out ++ map fst d) ->
  ~ In "_id" (map fst d) ->
  Forall (fun kv => is_object_id (snd kv) = false
                    /\ is_datetime (snd kv) = false) d ->
  fold_left serialize_entry d out = out ++ d.
Proof.
  revert out. induction d as [| [k v] d IH]; intros out Hnd Hid Hval.
  - cbn. now rewrite app_nil_r.
  - cbn [map fst In] in Hnd, Hid. apply Forall_cons_iff in Hval as [[Ho Hd] Hval].
    cbn [snd] in Ho, Hd. cbn [fold_left].
    assert (Hfresh : ~ In k (map fst out)).
    { apply NoDup_remove_2 in Hnd. intros H. apply Hnd. apply in_or_app. now left. }
    assert (Hstep : serialize_entry out (k, v) = out ++ [(k, v)]).
    { unfold serialize_entry.
      destruct (String.eqb_spec k "_id") as [-> | _];
        [exfalso; apply Hid; now left |].
      destruct v; try discriminate; now apply dict_set_fresh. }
    rewrite Hstep, IH.
    + now rewrite <- app_assoc.
    + rewrite map_app, <- app_assoc. exact Hnd.
    + intros H. apply Hid. now right.
    + exact Hval.
Qed.

Lemma serialize_plain_id (d : doc) : plain_doc d -> serialize_doc d = d.
Proof.
  intros [Hnd [Hid Hval]]. destruct d as [| kv d]; [reflexivity |].
  unfold serialize_doc. now rewrite serialize_loop_appends.
Qed.

(** X4. Serialization is idempotent on every document whose [_id] is not a
    [datetime]: serializing a serialized document changes nothing. (An
    [_id] holding a [datetime] is first copied to [id] and only turned
    into text by a second pass.) *)
Theorem serialize_doc_idempotent (d : doc) :
  no_datetime_id d -> serialize_doc (serialize_doc d) = serialize_doc d.
Proof.
  intros Hd. apply serialize_plain_id. now apply serialize_doc_plain.
Qed.

Lemma serialize_doc_idempotent_witness :
  no_datetime_id item_at_origin
  /\ serialize_doc (serialize_doc item_at_origin) = serialize_doc item_at_origin.
Proof.
  assert (H : no_datetime_id item_at_origin).
  { unfold no_datetime_id, item_at_origin.
    repeat (apply Forall_cons; [cbn; intros _; reflexivity |]). apply Forall_nil. }
  split; [exact H | exact (serialize_doc_idempotent item_at_origin H)].
Defined.

End SerializationFixpoint.

(* ------------------------------------------------------------------ *)
(** ** More on stable sorting *)

Section SortingMore.

Open Scope R_scope.

Context {A : Type} (key : A -> R).

Lemma insert_by_filter (p : A -> bool) (x : A) (l : list A) :
  StronglySorted (fun a b => key a <= key b) l ->
  filter p (insert_by key x l)
  = if p x then insert_by key x (filter p l) else filter p l.
Proof.
  induction 1 as [| y l Hl IH Hy]; cbn [insert_by filter].
  - now destruct (p x).
  - unfold Rltb. destruct (Rlt_dec (key y) (key x)) as [Hlt | Hge].
    + cbn [filter]. rewrite IH.
      destruct (p y), (p x); try reflexivity.
      cbn [insert_by]. unfold Rltb.
      destruct (Rlt_dec (key y) (key x)); [reflexivity | contradiction].
    + cbn [filter]. destruct (p x); [| reflexivity].
      assert (Hall : Forall (fun z => key x <= key z) (filter p (y :: l))).
      { apply Forall_forall. intros z Hz. apply filter_In in Hz as [Hz _].
        destruct Hz as [<- | Hz]; [lra |].
        rewrite Forall_forall in Hy. specialize (Hy z Hz). cbn in Hy. lra. }
      cbn [filter] in Hall. destruct (filter p l) as [| z r] eqn:E;
        destruct (p y); try reflexivity;
        cbn [insert_by]; unfold Rltb; apply Forall_inv in Hall;
        destruct (Rlt_dec _ (key x)); (lra || reflexivity).
Qed.

(** Filtering commutes with the stable sort. *)
Lemma sort_by_filter (p : A -> bool) (l : list A) :
  filter p (sort_by key l) = sort_by key (filter p l).
Proof.
  induction l as [| x l IH]; cbn [sort_by filter]; [reflexivity |].
  rewrite insert_by_filter by apply sort_by_sorted.
  rewrite IH. now destruct (p x).
Qed.

End SortingMore.

Section SortingMap.

Open Scope R_scope.

Context {A B : Type} (f : A -> B) (key : B -> R).

Lemma insert_by_map (x : A) (l : list A) :
  map f (insert_by (fun a => key (f a)) x l) = insert_by key (f x) (map f l).
Proof.
  induction l as [| y l IH]; cbn [insert_by map]; [reflexivity |].
  destruct (Rltb (key (f y)) (key (f x))); cbn [map]; now rewrite ?IH.
Qed.

Lemma sort_by_map (l : list A) :
  map f (sort_by (fun a => key (f a)) l) = sort_by key (map f l).
Proof.
  induction l as [| x l IH]; cbn [sort_by map]; [reflexivity |].
  now rewrite insert_by_map, IH.
Qed.

End SortingMap.

(* ------------------------------------------------------------------ *)
(** ** More on the proximity search *)

Section SearchMore.

Open Scope R_scope.

Variables lat lng : R.

Lemma retained_smaller_radius (r1 r2 : R) (d : doc) :
  r1 <= r2 ->
  retained lat lng r1 d
  = retained lat lng r2 d && Rleb (distance lat lng d) r1.
Proof.
  intros Hr. unfold retained, Rleb.
  destruct (Rle_dec (distance lat lng d) r1);
    destruct (Rle_dec (distance lat lng d) r2);
    destruct (available d); try reflexivity; lra.
Qed.

Lemma filter_filter (p q : doc -> bool) (l : list doc) :
  filter (fun d => q d && p d) l = filter p (filter q l).
Proof.
  induction l as [| d l IH]; [reflexivity |]. cbn [filter].
  destruct (q d); cbn [andb filter]; [destruct (p d) |]; now rewrite IH.
Qed.

(** X5. Shrinking the radius only removes documents: the result for the
    smaller radius is the result for the larger one without the documents
    farther away than the smaller radius, the others in the same order. *)
Theorem list_items_radius_monotone (r1 r2 : R) (docs : list doc) :
  r1 <= r2 ->
  exists kept : list doc,
    list_items lat lng r2 docs = Ok (map (annotate lat lng) kept)
    /\ list_items lat lng r1 docs
       = Ok (map (annotate lat lng)
               (filter (fun d => Rleb (distance lat lng d) r1) kept))
    /\ incl kept docs.
Proof.
  intros Hr.
  exists (sort_by (fun d => distance_km (annotate lat lng d))
            (filter (retained lat lng r2) docs)).
  rewrite !list_items_closed. split; [| split].
  - now rewrite sort_by_map.
  - rewrite sort_by_filter, sort_by_map. do 3 f_equal.
    rewrite <- filter_filter. apply filter_ext. intros d.
    now apply retained_smaller_radius.
  - intros d Hd.
    apply (Permutation_in _ (sort_by_perm _ _)) in Hd.
    now apply filter_In in Hd as [Hd _].
Qed.

(** X6. Every document the search returns is a serialized candidate that
    reads as available, has no [_id] key, and carries a numeric
    [distance_km] between 0 and [radius_km] + 0.005: the filter compares
    the unrounded distance, so the rounded one can pass the radius by half
    a hundredth. The result is never longer than the candidate list. *)
Theorem list_items_result_invariants (radius_km : R) (docs : list doc) :
  exists out : list doc,
    list_items lat lng radius_km docs = Ok out
    /\ (List.length out <= List.length docs)%nat
    /\ Forall (fun x =>
         (exists d : doc, In d docs /\ x = annotate lat lng d)
         /\ truthy (py_get_default "available" (VBool true) x) = true
         /\ dict_get "_id" x = None
         /\ as_real (py_get "distance_km" x) = Some (distance_km x)
         /\ 0 <= distance_km x <= radius_km + 1 / 200) out.
Proof.
  eexists. split; [apply list_items_closed |]. split.
  - rewrite (Permutation_length (sort_by_perm distance_km _)), length_map.
    apply filter_length_le.
  - apply (Permutation_Forall (Permutation_sym (sort_by_perm distance_km _))).
    apply Forall_forall. intros x Hx. apply in_map_iff in Hx as [d [<- Hd]].
    apply filter_In in Hd as [Hin Hd]. apply retained_iff in Hd as [Hle Hav].
    split; [now exists d |]. split; [| split; [| split]].
    + unfold annotate. rewrite distance_km_keeps_flag. exact Hav.
    + unfold annotate. rewrite dict_get_set_other by discriminate.
      apply dict_get_absent. now destruct (serialize_doc_ready d) as [_ [H _]].
    + rewrite <- (annotate_numeric lat lng d).
      unfold py_get, py_get_default, annotate. now rewrite dict_get_set_same.
    + rewrite annotate_rounds. unfold distance, assigned_dist in *.
      destruct (item_dist_shape lat lng (serialize_doc d)) as [[r [Hr Hpos]] | Hr];
        rewrite Hr in *.
      * pose proof (round2_close r) as Hc. pose proof (round2_nonneg r Hpos).
        unfold Rabs in Hc. destruct (Rcase_abs (round2 r - r)); lra.
      * lra.
Qed.

End SearchMore.

Lemma list_items_radius_monotone_witness :
  (1 <= 2)%R
  /\ exists kept : list doc,
       list_items 0 0 2 [item_at_origin; item_no_location]
       = Ok (map (annotate 0 0) kept)
       /\ list_items 0 0 1 [item_at_origin; item_no_location]
          = Ok (map (annotate 0 0)
                  (filter (fun d => Rleb (distance 0 0 d) 1) kept)).
Proof.
  assert (H : (1 <= 2)%R) by lra.
  split; [exact H |].
  destruct (list_items_radius_monotone 0 0 1 2 [item_at_origin; item_no_location] H)
    as [kept [H2 [H1 _]]].
  exists kept. split; assumption.
Defined.

(* ------------------------------------------------------------------ *)
(** ** More on the diversion aggregator *)

Section AggregatorMore.

Open Scope R_scope.

Lemma for_each_app {A S : Type} (body : S -> A -> result S) (l1 l2 : list A) (acc : S) :
  for_each body (l1 ++ l2) acc
  = (acc' <- for_each body l1 acc ;; for_each body l2 acc').
Proof.
  revert acc. induction l1 as [| x l1 IH]; intros acc; [reflexivity |].
  cbn [app for_each]. destruct (body acc x) as [acc' | e]; cbn [bind]; [apply IH | reflexivity].
Qed.

Lemma sum_R_app (l1 l2 : list R) : sum_R (l1 ++ l2) = sum_R l1 + sum_R l2.
Proof.
  unfold sum_R. induction l1 as [| x l1 IH]; cbn [app fold_right]; [lra |].
  rewrite IH. lra.
Qed.

Lemma user_stats_step_ok (p : nat) (k : R) (it : doc) (u : string) (q : R) :
  py_lower (py_or (py_get "unit" it) (VStr "")) = Ok u ->
  py_float (py_or (py_get "quantity" it) (VInt 0)) = Ok q ->
  user_stats_step (p, k) it
  = Ok (if explicitly_unavailable it then S p else p, k + q * factor_of u).
Proof.
  intros Hu Hq. unfold user_stats_step. rewrite Hu, is_False_flag. cbn [bind].
  rewrite Hq. unfold factor_of.
  destruct (one_of u ["kg"; "kilo"; "kilogram"; "kilograms"]);
    [| destruct (one_of u ["g"; "gram"; "grams"]);
       [| destruct (one_of u ["lb"; "lbs"; "pound"; "pounds"])]];
    cbn [bind]; do 2 f_equal; lra.
Qed.

Lemma user_stats_step_unit_raises (p : nat) (k : R) (it : doc) (e : exn) :
  py_lower (py_or (py_get "unit" it) (VStr "")) = Raise e ->
  user_stats_step (p, k) it = Raise e.
Proof. intros Hu. unfold user_stats_step. now rewrite Hu. Qed.

Lemma user_stats_step_quantity_raises (p : nat) (k : R) (it : doc) (u : string) (e : exn) :
  py_lower (py_or (py_get "unit" it) (VStr "")) = Ok u ->
  py_float (py_or (py_get "quantity" it) (VInt 0)) = Raise e ->
  user_stats_step (p, k) it = Raise e.
Proof.
  intros Hu Hq. unfold user_stats_step. rewrite Hu. cbn [bind]. rewrite Hq.
  destruct (one_of u ["kg"; "kilo"; "kilogram"; "kilograms"]);
    [| destruct (one_of u ["g"; "gram"; "grams"]);
       [| destruct (one_of u ["lb"; "lbs"; "pound"; "pounds"])]];
    reflexivity.
Qed.

(** The run over well-formed items, then one more item. *)
Lemma user_stats_after_prefix (before after : list doc) (it : doc) :
  Forall (fun x => well_formed_item x = true) before ->
  for_each user_stats_step (before ++ it :: after) (0%nat, 0.0)
  = (st <- user_stats_step
             ((0 + List.length (filter explicitly_unavailable before))%nat,
              0.0 + sum_R (map (fun x => quantity_of x * factor_untrimmed x) before))
             it ;;
     for_each user_stats_step after st).
Proof.
  intros Hb. rewrite for_each_app, (user_stats_loop _ Hb). reflexivity.
Qed.

(** X7. After items that aggregate normally, an item whose unit is
    [True], a number other than 0, an identifier or a date (the truthy
    values of the model that have no [.lower()]) makes [user_stats] raise
    [AttributeError], whatever its quantity and whatever items follow. *)
Theorem user_stats_unit_attribute_error (before after : list doc) (it : doc) :
  Forall (fun x => well_formed_item x = true) before ->
  truthy (py_get "unit" it) = true ->
  (forall s : string, py_get "unit" it <> VStr s) ->
  user_stats (before ++ it :: after) = Raise AttributeError.
Proof.
  intros Hb Ht Hs. unfold user_stats. rewrite (user_stats_after_prefix _ _ _ Hb).
  rewrite (user_stats_step_unit_raises _ _ _ AttributeError); [reflexivity |].
  unfold py_or. rewrite Ht.
  destruct (py_get "unit" it) as [| b | z | r | s | h | i]; try reflexivity.
  now elim (Hs s).
Qed.

Lemma user_stats_unit_attribute_error_witness :
  Forall (fun x => well_formed_item x = true) [item_2kg]
  /\ truthy (py_get "unit" item_numeric_unit) = true
  /\ user_stats ([item_2kg] ++ item_numeric_unit :: [item_500g_claimed])
     = Raise AttributeError.
Proof.
  assert (Hb : Forall (fun x => well_formed_item x = true) [item_2kg])
    by (repeat constructor).
  assert (Ht : truthy (py_get "unit" item_numeric_unit) = true) by reflexivity.
  assert (Hs : forall s : string, py_get "unit" item_numeric_unit <> VStr s)
    by (intros s; discriminate).
  split; [exact Hb | split; [exact Ht |]].
  exact (user_stats_unit_attribute_error
           [item_2kg] [item_500g_claimed] item_numeric_unit Hb Ht Hs).
Defined.

(** X8. After items that aggregate normally, an item whose unit is
    absent, null or text and on whose quantity (or on 0 in place of a
    falsy one) [float(..)] raises makes [user_stats] raise that exception,
    whatever items follow: [TypeError] for an identifier or a date,
    [OverflowError] for an integer beyond the floats, [ValueError] for an
    ASCII text that is neither a decimal literal nor a spelling of a
    non-finite float ("nan" converts and is not such a text). *)
Theorem user_stats_conversion_error
    (before after : list doc) (it : doc) (e : exn) :
  Forall (fun x => well_formed_item x = true) before ->
  text_or_absent (py_get "unit" it) = true ->
  conversion_error (py_or (py_get "quantity" it) (VInt 0)) = Some e ->
  user_stats (before ++ it :: after) = Raise e
  /\ (forall h : string,
         conversion_error (py_or (VObjectId h) (VInt 0)) = Some TypeError)
  /\ (forall i : string,
         conversion_error (py_or (VDatetime i) (VInt 0)) = Some TypeError)
  /\ conversion_error (py_or (VInt (2 ^ 1024)) (VInt 0)) = Some OverflowError
  /\ conversion_error (py_or (VStr "two") (VInt 0)) = Some ValueError
  /\ conversion_error (py_or (VStr "nan") (VInt 0)) = None.
Proof.
  intros Hb Hu Hq. split; [| repeat split; reflexivity].
  unfold user_stats. rewrite (user_stats_after_prefix _ _ _ Hb).
  rewrite (user_stats_step_quantity_raises _ _ _ _ _ (unit_lowers _ Hu)
             (conversion_error_raises _ _ Hq)).
  reflexivity.
Qed.

Lemma user_stats_conversion_error_witness :
  Forall (fun x => well_formed_item x = true) [item_2kg]
  /\ text_or_absent (py_get "unit" item_id_quantity) = true
  /\ conversion_error (py_or (py_get "quantity" item_id_quantity) (VInt 0))
     = Some TypeError
  /\ user_stats ([item_2kg] ++ item_id_quantity :: []) = Raise TypeError.
Proof.
  assert (Hb : Forall (fun x => well_formed_item x = true) [item_2kg])
    by (repeat constructor).
  assert (Hu : text_or_absent (py_get "unit" item_id_quantity) = true) by reflexivity.
  assert (Hq : conversion_error (py_or (py_get "quantity" item_id_quantity) (VInt 0))
               = Some TypeError) by reflexivity.
  split; [exact Hb | split; [exact Hu | split; [exact Hq |]]].
  exact (proj1 (user_stats_conversion_error
                  [item_2kg] [] item_id_quantity TypeError Hb Hu Hq)).
Defined.

End AggregatorMore.

Section AggregatorCounts.

Open Scope R_scope.

(** X9. A falsy quantity of any type (null, 0, 0.0, False, the empty
    text) counts as 0: the item adds nothing to the kilograms and does not
    raise, it is still counted in [items_shared], and in [people_helped]
    when its [available] flag is the boolean false. *)
Theorem user_stats_falsy_quantity (before after : list doc) (it : doc) :
  Forall (fun x => well_formed_item x = true) before ->
  Forall (fun x => well_formed_item x = true) after ->
  truthy (py_get "quantity" it) = false ->
  text_or_absent (py_get "unit" it) = true ->
  exists s s' : stats,
    user_stats (before ++ it :: after) = Ok s
    /\ user_stats (before ++ after) = Ok s'
    /\ kilograms_diverted s = kilograms_diverted s'
    /\ items_shared s = S (items_shared s')
    /\ people_helped s
       = ((if explicitly_unavailable it then 1 else 0) + people_helped s')%nat.
Proof.
  intros Hb Ha Hq Hu.
  assert (Hboth : Forall (fun x => well_formed_item x = true) (before ++ after))
    by (apply Forall_app; now split).
  assert (Hzero : py_float (py_or (py_get "quantity" it) (VInt 0)) = Ok 0)
    by (unfold py_or; rewrite Hq; reflexivity).
  do 2 eexists. split; [| split; [apply (user_stats_closed _ Hboth) |]].
  - unfold user_stats. rewrite (user_stats_after_prefix _ _ _ Hb).
    rewrite (user_stats_step_ok _ _ _ _ _ (unit_lowers _ Hu) Hzero). cbn [bind].
    rewrite (user_stats_loop _ Ha). cbn [bind]. reflexivity.
  - unfold stats_with.
    cbn [kilograms_diverted items_shared people_helped].
    rewrite !filter_app, !map_app, !length_app, !sum_R_app.
    split; [f_equal; lra | split].
    + cbn [List.length]. lia.
    + destruct (explicitly_unavailable it); lia.
Qed.

Lemma user_stats_falsy_quantity_witness :
  truthy (py_get "quantity" item_empty_quantity) = false
  /\ text_or_absent (py_get "unit" item_empty_quantity) = true
  /\ exists s s' : stats,
       user_stats ([item_2kg] ++ item_empty_quantity :: [item_500g_claimed]) = Ok s
       /\ user_stats ([item_2kg] ++ [item_500g_claimed]) = Ok s'
       /\ kilograms_diverted s = kilograms_diverted s'
       /\ items_shared s = S (items_shared s').
Proof.
  assert (Hb : Forall (fun x => well_formed_item x = true) [item_2kg])
    by (repeat constructor).
  assert (Ha : Forall (fun x => well_formed_item x = true) [item_500g_claimed])
    by (repeat constructor).
  assert (Hq : truthy (py_get "quantity" item_empty_quantity) = false) by reflexivity.
  assert (Hu : text_or_absent (py_get "unit" item_empty_quantity) = true)
    by reflexivity.
  split; [exact Hq | split; [exact Hu |]].
  destruct (user_stats_falsy_quantity
              [item_2kg] [item_500g_claimed] item_empty_quantity Hb Ha Hq Hu)
    as [s [s' [H1 [H2 [H3 [H4 _]]]]]].
  exists s, s'. repeat split; assumption.
Defined.

Lemma user_stats_step_count (p p' : nat) (k k' : R) (it : doc) :
  user_stats_step (p, k) it = Ok (p', k') -> (p <= p' <= S p)%nat.
Proof.
  destruct (py_lower (py_or (py_get "unit" it) (VStr ""))) as [u | e] eqn:Hu.
  - destruct (py_float (py_or (py_get "quantity" it) (VInt 0))) as [q | e] eqn:Hq.
    + rewrite (user_stats_step_ok _ _ _ _ _ Hu Hq). intros H. injection H as <- _.
      destruct (explicitly_unavailable it); lia.
    + rewrite (user_stats_step_quantity_raises _ _ _ _ _ Hu Hq). discriminate.
  - rewrite (user_stats_step_unit_raises _ _ _ _ Hu). discriminate.
Qed.

Lemma user_stats_loop_count (items : list doc) (p p' : nat) (k k' : R) :
  for_each user_stats_step items (p, k) = Ok (p', k') ->
  (p <= p' <= p + List.length items)%nat.
Proof.
  revert p k. induction items as [| it items IH]; intros p k; cbn [for_each].
  - intros H. injection H as <- _. cbn [List.length]. lia.
  - destruct (user_stats_step (p, k) it) as [[p1 k1] | e] eqn:E; cbn [bind];
      [| discriminate].
    intros H. apply IH in H. apply user_stats_step_count in E.
    cbn [List.length]. lia.
Qed.

(** X10. Whenever [user_stats] returns, on any items at all,
    [items_shared] is the number of items and [people_helped] is at most
    that number. *)
Theorem user_stats_counts_bounded (items : list doc) (s : stats) :
  user_stats items = Ok s ->
  items_shared s = List.length items
  /\ (people_helped s <= items_shared s)%nat.
Proof.
  unfold user_stats.
  destruct (for_each user_stats_step items (0%nat, 0.0)) as [[p k] | e] eqn:E;
    cbn [bind]; [| discriminate].
  intros H. injection H as <-. cbn [items_shared people_helped].
  apply user_stats_loop_count in E. split; [reflexivity | lia].
Qed.

Lemma user_stats_counts_bounded_witness :
  exists s : stats,
    user_stats [item_2kg; item_500g_claimed] = Ok s
    /\ items_shared s = 2%nat /\ (people_helped s <= items_shared s)%nat.
Proof.
  exists (stats_with factor_untrimmed [item_2kg; item_500g_claimed]).
  assert (H : user_stats [item_2kg; item_500g_claimed]
              = Ok (stats_with factor_untrimmed [item_2kg; item_500g_claimed]))
    by (apply user_stats_closed; repeat constructor).
  split; [exact H |].
  exact (user_stats_counts_bounded _ _ H).
Defined.

End AggregatorCounts.

(* ------------------------------------------------------------------ *)
(** ** More on the suggestion engine *)

Section SuggestionsMore.

Open Scope string_scope.

Lemma lower_app (a b : string) : lower (a ++ b) = lower a ++ lower b.
Proof.
  induction a as [| c a IH]; [reflexivity |]. cbn [append lower]. now rewrite IH.
Qed.

Lemma lower_ascii_idem (c : ascii) : lower_ascii (lower_ascii c) = lower_ascii c.
Proof.
  destruct c as [[|] [|] [|] [|] [|] [|] [|] [|]]; reflexivity.
Qed.

Lemma lower_idem (s : string) : lower (lower s) = lower s.
Proof.
  induction s as [| c s IH]; [reflexivity |]. cbn [lower].
  now rewrite lower_ascii_idem, IH.
Qed.

Lemma tipid_text_lower (title : string) (description : option string) :
  tipid_text (lower title) (Some (lower (or_empty description)))
  = tipid_text title description.
Proof.
  unfold tipid_text. cbn [or_empty]. rewrite !lower_app, !lower_idem. reflexivity.
Qed.

(** X11. Replacing the capital letters A to Z of the title or of the
    description by their small letters changes nothing in the answer, and
    a missing description answers like an empty one. *)
Theorem tipid_case_insensitive (title : string) (description category : option string) :
  _generate_tipid_suggestions title description category
  = _generate_tipid_suggestions
      (lower title) (Some (lower (or_empty description))) category
  /\ _generate_tipid_suggestions title None category
     = _generate_tipid_suggestions title (Some "") category.
Proof.
  split; [| reflexivity].
  unfold _generate_tipid_suggestions. now rewrite tipid_text_lower.
Qed.

Lemma prefix_before_space (n a b : string) :
  no_space n = true -> prefix n (a ++ " " ++ b) = prefix n a.
Proof.
  revert a. induction n as [| c n IH]; intros a Hn; [now destruct a |].
  cbn [no_space] in Hn. apply andb_prop in Hn as [Hc Hn].
  destruct a as [| x a]; cbn [append prefix].
  - destruct (ascii_dec c " ") as [-> | _]; [discriminate Hc | reflexivity].
  - destruct (ascii_dec c x); [now apply IH | reflexivity].
Qed.

(** A word without a blank lies in [a ++ " " ++ b] only inside [a] or
    inside [b]. *)
Lemma contains_around_space (n a b : string) :
  no_space n = true ->
  contains n (a ++ " " ++ b) = contains n a || contains n b.
Proof.
  intros Hn. induction a as [| x a IH].
  - cbn [append contains].
    change (String " " b) with ("" ++ " " ++ b).
    rewrite (prefix_before_space n "" b Hn).
    destruct n, b; reflexivity.
  - change (String x a ++ " " ++ b) with (String x (a ++ " " ++ b)).
    cbn [contains].
    change (String x (a ++ " " ++ b)) with (String x a ++ " " ++ b).
    rewrite (prefix_before_space n (String x a) b Hn), IH.
    now rewrite orb_assoc.
Qed.

Lemma any_in_around_space (kws : list string) (a b : string) :
  forallb no_space kws = true ->
  any_in kws (a ++ " " ++ b) = any_in kws a || any_in kws b.
Proof.
  unfold any_in. induction kws as [| kw kws IH]; cbn [forallb existsb]; intros H.
  - reflexivity.
  - apply andb_prop in H as [Hkw Hkws].
    rewrite (contains_around_space kw a b Hkw), (IH Hkws).
    destruct (contains kw a), (contains kw b),
      (existsb (fun n => contains n a) kws); reflexivity.
Qed.

(** X12. A keyword rule fires exactly when one of its words occurs in the
    lower-cased title or in the lower-cased description: the blank put
    between the two keeps a word from matching across them. *)
Theorem keywords_match_title_or_description
    (title : string) (description : option string) :
  Forall (fun group =>
            any_in group (tipid_text title description)
            = any_in group (lower title)
              || any_in group (lower (or_empty description)))
         keyword_groups
  /\ keyword_rule_fired title description
     = existsb (fun group =>
                  any_in group (lower title)
                  || any_in group (lower (or_empty description)))
               keyword_groups
  /\ keyword_rule_fired "ban" (Some "ana") = false.
Proof.
  assert (H : forall group, In group keyword_groups ->
            any_in group (tipid_text title description)
            = any_in group (lower title)
              || any_in group (lower (or_empty description))).
  { intros group Hin. unfold tipid_text. rewrite !lower_app.
    change (lower " ") with " ". apply any_in_around_space.
    cbn [keyword_groups In] in Hin.
    repeat (destruct Hin as [<- | Hin]; [reflexivity |]). destruct Hin. }
  split; [now apply Forall_forall | split; [| reflexivity]].
  unfold keyword_rule_fired, keyword_groups. cbn [existsb].
  rewrite <- !H by (cbn [keyword_groups In]; tauto).
  now rewrite orb_false_r, !orb_assoc.
Qed.

End SuggestionsMore.

Section SuggestionsRules.

Open Scope string_scope.

(** X13. A tip or a recipe of the rule table is in the answer exactly
    when its rule fired: rules never suppress one another, and nothing of
    a rule that did not fire gets in. *)
Theorem tipid_rule_strings_iff_fired
    (title : string) (description category : option string) (rl : rule) :
  In rl rule_table ->
  (forall x : string,
      In x (rule_tips rl) ->
      (In x (tips (_generate_tipid_suggestions title description category))
       <-> fires rl (tipid_text title description) category = true))
  /\ (forall x : string,
         In x (rule_recipes rl) ->
         (In x (recipes (_generate_tipid_suggestions title description category))
          <-> fires rl (tipid_text title description) category = true)).
Proof.
  intros Hrl. cbn [rule_table In] in Hrl.
  repeat (destruct Hrl as [<- | Hrl]);
    try contradiction;
    cbn [rule_tips rule_recipes fires];
    (split; intros x Hx; cbn [In] in Hx;
     repeat (destruct Hx as [<- | Hx]); try contradiction;
     rewrite <- mem_In;
     split_rules title description category;
     destruct banana, bread, rice, gulay, household; vm_compute;
     split; intros H; (reflexivity || discriminate H)).
Qed.

Lemma tipid_rule_strings_iff_fired_witness :
  In {| fires := fun text _ => any_in ["banana"] text;
        rule_tips := [tip_banana];
        rule_recipes := [recipe_banana_bread; recipe_smoothie; recipe_maruya] |}
     rule_table
  /\ (In recipe_maruya (recipes (_generate_tipid_suggestions "Saging" None None))
      <-> any_in ["banana"] (tipid_text "Saging" None) = true).
Proof.
  assert (Hrl : In {| fires := fun text _ => any_in ["banana"] text;
                      rule_tips := [tip_banana];
                      rule_recipes := [recipe_banana_bread; recipe_smoothie;
                                       recipe_maruya] |} rule_table)
    by (left; reflexivity).
  split; [exact Hrl |].
  apply (proj2 (tipid_rule_strings_iff_fired "Saging" None None _ Hrl)).
  right. right. left. reflexivity.
Defined.

(** X14. The answer always has between one and six tips and at most nine
    recipes, and its recipe list is empty exactly when the household rule
    fired and no keyword rule did. *)
Theorem tipid_answer_sizes (title : string) (description category : option string) :
  let r := _generate_tipid_suggestions title description category in
  (1 <= List.length (tips r) <= 6)%nat
  /\ (List.length (recipes r) <= 9)%nat
  /\ (recipes r = []
      <-> keyword_rule_fired title description = false
          /\ category_is category "household" = true).
Proof.
  intros r. subst r.
  split_rules title description category.
  destruct banana, bread, rice, gulay, household; vm_compute;
    (split; [split; lia | split; [lia |]]);
    (split; [intros H; first [discriminate H | split; reflexivity]
            | intros [H1 H2]; first [reflexivity | discriminate H1 | discriminate H2]]).
Qed.

End SuggestionsRules.

(* ------------------------------------------------------------------ *)
(** ** More on the geo distance *)

Section HaversineMore.

Open Scope R_scope.

(** X15. Swapping the two points leaves the outcome of [_haversine_km]
    unchanged, and the distance from a point to itself is exactly 0. *)
Theorem haversine_swap_and_self (lat1 lon1 lat2 lon2 : R) :
  _haversine_km lat1 lon1 lat2 lon2 = _haversine_km lat2 lon2 lat1 lon1
  /\ _haversine_km lat1 lon1 lat1 lon1 = Ok 0.
Proof.
  split; [apply haversine_symmetric | apply haversine_self].
Qed.

Lemma atan2_quarter (y x : R) : 0 <= y -> 0 <= x -> atan2 y x <= PI / 2.
Proof.
  intros Hy Hx. unfold atan2. pose proof PI_RGT_0 as Hpi.
  destruct (Rlt_dec 0 x) as [_ | _].
  - pose proof (atan_bound (y / x)). lra.
  - destruct (Rlt_dec x 0) as [Hneg | _]; [lra |].
    destruct (Rlt_dec 0 y) as [_ | _]; [lra |].
    destruct (Rlt_dec y 0) as [_ | _]; lra.
Qed.

(** X16. A distance [_haversine_km] returns is never negative and never
    more than half the circumference of the sphere, 6371 * PI km. *)
Theorem haversine_range (lat1 lon1 lat2 lon2 r : R) :
  _haversine_km lat1 lon1 lat2 lon2 = Ok r -> 0 <= r <= 6371 * PI.
Proof.
  rewrite haversine_value. intros H. injection H as <-.
  set (a := haversine_a lat1 lon1 lat2 lon2).
  pose proof (atan2_nonneg (sqrt a) (sqrt (1 - a)) (sqrt_pos _) (sqrt_pos _)).
  pose proof (atan2_quarter (sqrt a) (sqrt (1 - a)) (sqrt_pos _) (sqrt_pos _)).
  lra.
Qed.

Lemma haversine_range_witness :
  _haversine_km 14.5995 120.9842 14.5995 120.9842 = Ok 0 /\ 0 <= 0 <= 6371 * PI.
Proof.
  assert (H : _haversine_km 14.5995 120.9842 14.5995 120.9842 = Ok 0)
    by apply haversine_self.
  split; [exact H | exact (haversine_range _ _ _ _ _ H)].
Defined.

Lemma sin_sqr_abs (y : R) : sin y ^ 2 = sin (Rabs y) ^ 2.
Proof.
  unfold Rabs. destruct (Rcase_abs y); [| reflexivity].
  rewrite sin_neg. ring.
Qed.

(** The angle of a point of the unit quarter circle. *)
Lemma atan2_sin_cos (z : R) : 0 <= z <= PI / 2 -> atan2 (sin z) (cos z) = z.
Proof.
  intros [Hz0 Hz1]. pose proof PI_RGT_0 as Hpi. unfold atan2.
  destruct (Req_dec z (PI / 2)) as [-> | Hne].
  - rewrite cos_PI2, sin_PI2.
    destruct (Rlt_dec 0 0) as [H | _]; [lra |].
    destruct (Rlt_dec 0 1) as [_ | H]; [reflexivity | lra].
  - assert (Hc : 0 < cos z) by (apply cos_gt_0; lra).
    destruct (Rlt_dec 0 (cos z)) as [_ | H]; [| contradiction].
    change (sin z / cos z) with (tan z). apply atan_tan. lra.
Qed.

Lemma arc_of_half_angle (y : R) :
  - (PI / 2) <= y <= PI / 2 ->
  atan2 (sqrt (sin y ^ 2)) (sqrt (1 - sin y ^ 2)) = Rabs y.
Proof.
  intros Hy. rewrite sin_sqr_abs.
  assert (Hz : 0 <= Rabs y <= PI / 2).
  { unfold Rabs. destruct (Rcase_abs y); lra. }
  set (z := Rabs y) in *. pose proof PI_RGT_0 as Hpi.
  assert (Hs : 0 <= sin z) by (apply sin_ge_0; lra).
  assert (Hc : 0 <= cos z) by (apply cos_ge_0; lra).
  replace (1 - sin z ^ 2) with (cos z ^ 2)
    by (pose proof (sin2_cos2 z) as H; unfold Rsqr in H; nra).
  rewrite !sqrt_pow2 by assumption.
  now apply atan2_sin_cos.
Qed.

(** X17. In exact arithmetic, between two points on one meridian at most
    180 degrees of latitude apart, and between two points of the equator
    at most 180 degrees of longitude apart, [_haversine_km] is the length
    of the arc: 6371 km times the angle between them in radians. *)
Theorem haversine_along_meridian (lon lat1 lat2 : R) :
  -180 <= lat2 - lat1 <= 180 ->
  _haversine_km lat1 lon lat2 lon = Ok (6371 * Rabs (radians (lat2 - lat1)))
  /\ _haversine_km 0 lat1 0 lat2 = Ok (6371 * Rabs (radians (lat2 - lat1))).
Proof.
  intros Hd. pose proof PI_RGT_0 as Hpi.
  set (y := radians (lat2 - lat1) / 2).
  assert (Hy : - (PI / 2) <= y <= PI / 2).
  { unfold y, radians. split; nra. }
  assert (Habs : Rabs (radians (lat2 - lat1)) = 2 * Rabs y).
  { unfold y. unfold Rabs.
    destruct (Rcase_abs (radians (lat2 - lat1)));
      destruct (Rcase_abs (radians (lat2 - lat1) / 2)); lra. }
  assert (Hsame : haversine_a lat1 lon lat2 lon = sin y ^ 2).
  { unfold haversine_a. fold y.
    replace (radians (lon - lon) / 2) with 0 by (unfold radians; field).
    rewrite sin_0. ring. }
  assert (Heq : haversine_a 0 lat1 0 lat2 = sin y ^ 2).
  { unfold haversine_a. fold y.
    replace (radians (0 - 0) / 2) with 0 by (unfold radians; field).
    replace (radians 0) with 0 by (unfold radians; field).
    rewrite sin_0, cos_0. ring. }
  rewrite !haversine_value, Hsame, Heq, (arc_of_half_angle y Hy), Habs.
  split; f_equal; lra.
Qed.

Lemma haversine_along_meridian_witness :
  -180 <= 90 - 0 <= 180
  /\ _haversine_km 0 0 90 0 = Ok (6371 * Rabs (radians (90 - 0))).
Proof.
  assert (H : -180 <= 90 - 0 <= 180) by lra.
  split; [exact H | exact (proj1 (haversine_along_meridian 0 0 90 H))].
Defined.

End HaversineMore.

(* ------------------------------------------------------------------ *)
(** ** The search at the centre, and items created through the API *)

Section Composition.

Open Scope R_scope.

Lemma annotate_distance_nonneg (lat lng : R) (d : doc) :
  0 <= distance_km (annotate lat lng d).
Proof.
  rewrite annotate_rounds. unfold assigned_dist.
  destruct (item_dist_shape lat lng (serialize_doc d)) as [[r [-> Hr]] | ->].
  - now apply round2_nonneg.
  - lra.
Qed.

Lemma stored_float_converts (k : string) (x : R) (d : doc) :
  unique_keys d -> k <> "id" -> k <> "_id" ->
  dict_get k d = Some (VFloat x) ->
  py_float (py_get k (serialize_doc d)) = Ok x.
Proof.
  intros Hu H1 H2 Hk. unfold py_get, py_get_default.
  now rewrite (serialize_doc_get k d Hu H1 H2), Hk.
Qed.

(** X18. An available candidate stored exactly at the centre of the
    search is returned for every radius that is not negative, with
    [distance_km] 0, which no returned document undercuts. *)
Theorem list_items_centre_item (lat lng radius_km : R) (docs : list doc) (d : doc) :
  0 <= radius_km ->
  In d docs ->
  unique_keys d ->
  dict_get "location_lat" d = Some (VFloat lat) ->
  dict_get "location_lng" d = Some (VFloat lng) ->
  available d = true ->
  exists out : list doc,
    list_items lat lng radius_km docs = Ok out
    /\ In (annotate lat lng d) out
    /\ distance_km (annotate lat lng d) = 0
    /\ Forall (fun x => distance_km (annotate lat lng d) <= distance_km x) out.
Proof.
  intros Hrad Hin Hu Hlat Hlng Hav.
  assert (Hd : distance lat lng d = 0).
  { destruct (assigned_dist_parsed lat lng d lat lng) as [r [Hr [_ ->]]].
    - apply (stored_float_converts _ _ _ Hu); [discriminate | discriminate | exact Hlat].
    - apply (stored_float_converts _ _ _ Hu); [discriminate | discriminate | exact Hlng].
    - rewrite haversine_self in Hr. now injection Hr as <-. }
  assert (Hz : distance_km (annotate lat lng d) = 0) by now apply annotate_at_zero.
  eexists. split; [apply list_items_closed |]. split; [| split; [exact Hz |]].
  - apply (Permutation_in _ (Permutation_sym (sort_by_perm distance_km _))).
    apply in_map. apply filter_In. split; [exact Hin |].
    apply retained_iff. split; [lra | exact Hav].
  - rewrite Hz.
    apply (Permutation_Forall (Permutation_sym (sort_by_perm distance_km _))).
    apply Forall_forall. intros x Hx. apply in_map_iff in Hx as [d' [<- _]].
    apply annotate_distance_nonneg.
Qed.

Lemma item_at_origin_unique : unique_keys item_at_origin.
Proof.
  unfold unique_keys, item_at_origin. cbn [map fst].
  repeat (constructor; [cbn [In]; intuition discriminate |]). constructor.
Qed.

Lemma list_items_centre_item_witness :
  0 <= 2
  /\ exists out : list doc,
       list_items 0 0 2 [item_no_location; item_at_origin] = Ok out
       /\ In (annotate 0 0 item_at_origin) out.
Proof.
  assert (Hrad : 0 <= 2) by lra.
  assert (Hin : In item_at_origin [item_no_location; item_at_origin])
    by (right; left; reflexivity).
  split; [exact Hrad |].
  destruct (list_items_centre_item 0 0 2 [item_no_location; item_at_origin]
              item_at_origin Hrad Hin item_at_origin_unique eq_refl eq_refl eq_refl)
    as [out [Hout [Hmem _]]].
  exists out. split; assumption.
Defined.

Lemma stored_item_reads (req : CreateItemRequest) (d : doc) :
  stored_item req d ->
  well_formed_item d = true
  /\ explicitly_unavailable d = false
  /\ available d = true
  /\ location_parses d = true.
Proof.
  intros [Hu Hk].
  assert (Hq : dict_get "quantity" d = Some (opt_float (req_quantity req)))
    by (apply Hk; cbn; tauto).
  assert (Hun : dict_get "unit" d = Some (opt_str (req_unit req)))
    by (apply Hk; cbn; tauto).
  assert (Hav : dict_get "available" d = None) by (apply Hk; cbn; tauto).
  assert (Hlat : dict_get "location_lat" d = Some (VFloat (req_location_lat req)))
    by (apply Hk; cbn; tauto).
  assert (Hlng : dict_get "location_lng" d = Some (VFloat (req_location_lng req)))
    by (apply Hk; cbn; tauto).
  repeat split.
  - unfold well_formed_item, py_get, py_get_default. rewrite Hq, Hun.
    now destruct (req_quantity req), (req_unit req).
  - unfold explicitly_unavailable. now rewrite Hav.
  - rewrite (available_of_flag d Hu). now rewrite Hav.
  - unfold location_parses.
    rewrite (stored_float_converts "location_lat" _ d Hu
               ltac:(discriminate) ltac:(discriminate) Hlat).
    rewrite (stored_float_converts "location_lng" _ d Hu
               ltac:(discriminate) ltac:(discriminate) Hlng).
    reflexivity.
Qed.

(** X19. [create_item] answers with the identifier of the store under
    [id] followed by the eleven request fields as they were sent. Its
    request has no [available] field, so on documents that hold what it
    stored, [user_stats] returns and counts nobody as helped, and the
    search reads every one of them as available, with coordinates that
    convert. *)
Theorem create_item_then_read
    (create_document : string -> doc -> string)
    (reqs : list CreateItemRequest) (docs : list doc) :
  Forall2 stored_item reqs docs ->
  (forall req : CreateItemRequest,
      create_item create_document req
      = ("id", VStr (create_document "item" (model_dump req))) :: model_dump req)
  /\ (exists s : stats,
         user_stats docs = Ok s
         /\ items_shared s = List.length reqs
         /\ people_helped s = 0%nat)
  /\ Forall (fun d => available d = true /\ location_parses d = true) docs.
Proof.
  intros Hst. split; [intros req; reflexivity |].
  assert (Hall : Forall (fun d => well_formed_item d = true
                                  /\ explicitly_unavailable d = false
                                  /\ available d = true
                                  /\ location_parses d = true) docs).
  { induction Hst as [| req d reqs docs Hd _ IH]; constructor;
      [now apply (stored_item_reads req) | exact IH]. }
  split.
  - exists (stats_with factor_untrimmed docs). split; [| split].
    + apply user_stats_closed. eapply Forall_impl; [| exact Hall]. cbn. tauto.
    + cbn [stats_with items_shared]. symmetry. exact (Forall2_length Hst).
    + cbn [stats_with people_helped].
      clear Hst. induction Hall as [| d docs [_ [Hd _]] _ IH]; [reflexivity |].
      cbn [filter]. now rewrite Hd.
  - eapply Forall_impl; [| exact Hall]. cbn. tauto.
Qed.

Lemma create_item_then_read_witness :
  Forall2 stored_item [sample_request] [model_dump sample_request]
  /\ exists s : stats,
       user_stats [model_dump sample_request] = Ok s /\ people_helped s = 0%nat.
Proof.
  assert (H : Forall2 stored_item [sample_request] [model_dump sample_request]).
  { constructor; [| constructor]. split; [| intros k _; reflexivity].
    unfold unique_keys, model_dump. cbn [map fst].
    repeat (constructor; [cbn [In]; intuition discriminate |]). constructor. }
  split; [exact H |].
  destruct (create_item_then_read (fun _ _ => "65f1c0ffee0123456789abcd")
              [sample_request] [model_dump sample_request] H)
    as [_ [[s [Hs [_ Hp]]] _]].
  exists s. split; assumption.
Defined.

End Composition.
